(** * jsonrpcserver: the dispatch core, embedded in Rocq

    A shallow embedding of [jsonrpcserver/request.py] and
    [jsonrpcserver/dispatcher.py].

    - Python values that travel through the dispatcher are JSON values
      ([json]); Python's [None] is [JNull].
    - A Python [dict] with string keys is an association list kept in
      insertion order, with the update-in-place semantics of [d[k] = v].
    - Exceptions are values of [exn]; code that can raise returns an
      [outcome].  A string is a Python string of code points below 256.  The dispatcher also logs and calls handlers, so it runs
      in a small writer monad [M] that records these effects as a trace. *)

From Stdlib Require Import List String Ascii ZArith NArith Bool Lia.
Import ListNotations.
Set Warnings "-register-all".
Local Open Scope string_scope.
Local Open Scope list_scope.

(** ** JSON values *)

Inductive json : Type :=
| JNull
| JBool (b : bool)
| JInt (n : Z)
| JFloat (bits : Z)           (* an IEEE-754 double, by its 64 bits *)
| JStr (s : string)
| JArr (items : list json)
| JObj (entries : list (string * json)).

(** ** Python dictionaries with string keys *)

Definition dict (V : Type) : Type := list (string * V).

Fixpoint dict_lookup {V} (d : dict V) (k : string) : option V :=
  match d with
  | [] => None
  | (k', v) :: rest => if String.eqb k' k then Some v else dict_lookup rest k
  end.

(** [d[k] = v]: an existing key keeps its position, a new one goes last. *)
Fixpoint dict_set {V} (d : dict V) (k : string) (v : V) : dict V :=
  match d with
  | [] => [(k, v)]
  | (k', v') :: rest =>
      if String.eqb k' k then (k, v) :: rest else (k', v') :: dict_set rest k v
  end.

Fixpoint dict_remove {V} (d : dict V) (k : string) : dict V :=
  match d with
  | [] => []
  | (k', v') :: rest =>
      if String.eqb k' k then rest else (k', v') :: dict_remove rest k
  end.

Definition dict_keys {V} (d : dict V) : list string := map fst d.

(** Truthiness of a list or dict: non-empty. *)
Definition truthy {A} (l : list A) : bool :=
  match l with [] => false | _ :: _ => true end.

(** Truthiness of a value that is [None] or a list/dict. *)
Definition truthy_opt {A} (o : option (list A)) : bool :=
  match o with None => false | Some l => truthy l end.

(** [d.get(k)]: [None] when the key is missing. *)
Definition dict_get (d : dict json) (k : string) : json :=
  match dict_lookup d k with Some v => v | None => JNull end.

(** ** Exceptions and outcomes *)

(** An instance of [JsonRpcServerError] (or of a subclass).

    Modelled from the spec: [exceptions.py] is not among the sources.  Each
    taxonomy error carries a transport status, a JSON-RPC code, a message,
    optional data ([JNull] when there is none) and the id of the request it
    answers ([JNull] until the dispatcher sets it). *)
Record JsonRpcServerError : Type := mkError {
  http_status_code : Z;
  jsonrpc_status_code : Z;
  text : string;
  data : json;
  request_id : json
}.

Inductive exn : Type :=
| TaxonomyError (e : JsonRpcServerError)
| KeyError (key : json)
| TypeError (msg : string)
| AttributeError (msg : string)
| AssertionError (msg : string)
| OtherException (cls msg : string)    (* any other subclass of Exception *)
| BaseExceptionOnly (cls msg : string). (* SystemExit, KeyboardInterrupt, ...:
                                          a BaseException that is no Exception *)

(** [isinstance(e, Exception)]: what [except Exception] catches. *)
Definition is_Exception (e : exn) : bool :=
  match e with
  | BaseExceptionOnly _ _ => false
  | _ => true
  end.

Inductive outcome (A : Type) : Type :=
| Returns (a : A)
| Raises (e : exn).
Arguments Returns {A} a.
Arguments Raises {A} e.

(** * request.py *)

Module request.

(** The sentinels [UNSPECIFIED] and [NOID] are fresh objects, distinct from
    every value a caller can pass. *)
Inductive supplied (A : Type) : Type :=
| UNSPECIFIED
| Given (a : A).
Arguments UNSPECIFIED {A}.
Arguments Given {A} a.

Inductive request_id : Type :=
| NOID
| Id (v : json).

(** *** Regular-expression substitution

    [re.sub] scans left to right; at each position it tries the pattern,
    and after a match it resumes at the end of the match.  A [matcher]
    gives, for the text at the current position, the length of the match
    and the text that replaces it.  Neither pattern below matches the
    empty string. *)
Definition matcher : Type := string -> option (nat * string).

Fixpoint sub_scan (m : matcher) (skip : nat) (s : string) : string :=
  match s with
  | EmptyString => EmptyString
  | String c rest =>
      match skip with
      | S k => sub_scan m k rest          (* inside the previous match *)
      | O =>
          match m s with
          | Some (n, repl) => (repl ++ sub_scan m (pred n) rest)%string
          | None => String c (sub_scan m 0 rest)
          end
      end
  end.

Definition re_sub (m : matcher) (s : string) : string := sub_scan m 0 s.

Definition in_range (lo hi c : ascii) : bool :=
  (N.leb (N_of_ascii lo) (N_of_ascii c) && N.leb (N_of_ascii c) (N_of_ascii hi))%bool.

Definition is_upper (c : ascii) : bool := in_range "A" "Z" c.
Definition is_lower (c : ascii) : bool := in_range "a" "z" c.
Definition is_digit (c : ascii) : bool := in_range "0" "9" c.

(** [.] matches every character but the newline. *)
Definition is_dot (c : ascii) : bool := negb (Ascii.eqb c "010").

(** The longest prefix of lowercase letters: the greedy [[a-z]*]. *)
Fixpoint lower_run (s : string) : string :=
  match s with
  | String c rest => if is_lower c then String c (lower_run rest) else EmptyString
  | EmptyString => EmptyString
  end.

(** ["(.)([A-Z][a-z]+)"] replaced by [r"\1_\2"]. *)
Definition word_boundary : matcher := fun s =>
  match s with
  | String c (String u (String l rest)) =>
      if (is_dot c && is_upper u && is_lower l)%bool then
        let run := lower_run rest in
        Some (3 + String.length run,
              String c (String "_" (String u (String l run))))
      else None
  | _ => None
  end.

(** ["([a-z0-9])([A-Z])"] replaced by [r"\1_\2"]. *)
Definition hump : matcher := fun s =>
  match s with
  | String c (String u _) =>
      if ((is_lower c || is_digit c) && is_upper u)%bool then
        Some (2, String c (String "_" (String u EmptyString)))
      else None
  | _ => None
  end.

(** The capital letters among the code points 128 to 255: U+00C0 to
    U+00DE, the multiplication sign U+00D7 apart. *)
Definition is_upper_latin1 (c : ascii) : bool :=
  (in_range "192" "214" c || in_range "216" "222" c)%bool.

Definition lower_char (c : ascii) : ascii :=
  if (is_upper c || is_upper_latin1 c)%bool
  then ascii_of_N (N_of_ascii c + 32) else c.

(** [str.lower] on code points below 256: every capital letter moves 32
    up, to its small letter, and every other code point is kept.  Case
    mapping of code points from 256 on (which can depend on the
    neighbours, as for the final sigma) is outside this model. *)
Fixpoint lower (s : string) : string :=
  match s with
  | EmptyString => EmptyString
  | String c rest => String (lower_char c) (lower rest)
  end.

Definition convert_camel_case_string (name : string) : string :=
  let string := re_sub word_boundary name in
  lower (re_sub hump string).

(** [convert_camel_case_keys]: the new dict is filled key by key, so two
    keys with the same snake-case form collapse into one entry. *)
Fixpoint convert_camel_case_value (val : json) : json :=
  match val with
  | JObj entries =>
      JObj ((fix items (l : list (string * json)) (new_dict : dict json) : dict json :=
               match l with
               | [] => new_dict
               | (key, v) :: rest =>
                   items rest
                     (dict_set new_dict (convert_camel_case_string key)
                        (convert_camel_case_value v))
               end) entries [])
  | _ => val
  end.

Definition convert_camel_case_keys (original_dict : dict json) : dict json :=
  fold_left
    (fun new_dict kv =>
       dict_set new_dict (convert_camel_case_string (fst kv))
         (convert_camel_case_value (snd kv)))
    original_dict [].

Definition assert_msg : string :=
  "Cannot have both positional and keyword arguments in JSON-RPC.".

(** [get_arguments(params, context)].  [params] is whatever the caller
    passed: a JSON value, or the [UNSPECIFIED] object. *)
Definition get_arguments (params : supplied json) (context : supplied json)
  : outcome (list json * dict json) :=
  let '(positionals, nameds) :=
    match params with
    | Given (JArr l) => (l, [])
    | Given (JObj d) => ([], d)
    | _ => ([], [])
    end in
  if (truthy positionals && truthy nameds)%bool then
    Raises (AssertionError assert_msg)
  else
    let nameds :=
      match context with
      | Given c => dict_set nameds "context" c
      | UNSPECIFIED => nameds
      end in
    Returns (positionals, nameds).

Record Request : Type := mkRequest {
  jsonrpc : option string;
  method : string;
  args : list json;
  kwargs : dict json;
  id : request_id
}.

Definition is_list_or_dict (params : supplied json) : bool :=
  match params with
  | Given (JArr _) | Given (JObj _) => true
  | _ => false
  end.

(** [Request.__init__]. *)
Definition init (method : string) (jsonrpc : option string)
    (params : supplied json) (id : request_id)
    (convert_camel_case : bool) (context : supplied json) : outcome Request :=
  match
    (if is_list_or_dict params then get_arguments params context
     else Returns ([], []))
  with
  | Raises e => Raises e
  | Returns (args, kwargs) =>
      if convert_camel_case then
        Returns
          (mkRequest jsonrpc (convert_camel_case_string method) args
             (if truthy kwargs then convert_camel_case_keys kwargs else kwargs)
             id)
      else Returns (mkRequest jsonrpc method args kwargs id)
  end.

Definition is_notification (self : Request) : bool :=
  match id self with NOID => true | Id _ => false end.

End request.

(** * dispatcher.py *)

Module dispatcher.

(** What the dispatcher takes from outside this repository's sources. *)
Class Platform : Type := {
  (** [json.loads]: [None] stands for [ValueError]. *)
  json_loads : string -> option json;
  (** [json_validator.validate] against [request-schema.json]:
      [Some message] stands for [ValidationError(message)]. *)
  schema_violation : json -> option string;
  (** The default message of a JSON-RPC error code ([status.py]). *)
  status_text : Z -> string;
  (** [HTTP_STATUS_CODES] of [status.py], the reason phrase of a status:
      [None] stands for a status that is not in the table. *)
  http_reason : Z -> option string;
  (** Modelled from the spec: [status.py] is not among the sources.  The
      table holds the statuses the dispatcher itself answers with. *)
  http_reason_known :
    forall status, In status [200; 204; 400; 404; 500]%Z ->
                   http_reason status <> None
}.

(** A registered callable: its name, what [signature(func).bind(args, kwargs)] says about an argument list ([Some msg] stands for the
    [TypeError(msg)] of that call), and what calling it does. *)
Record handler : Type := mkHandler {
  __name__ : string;
  signature_bind : list json -> dict json -> option string;
  body : list json -> dict json -> outcome json
}.

(** Effects of a dispatch, in the order they happen. *)
Inductive event : Type :=
| LogRequest (request : json)                     (* request_log.info *)
| Lookup (name : json)                            (* self._rpc_methods[...] *)
| Bind (fname : string) (args : list json) (kwargs : dict json)
| Invoke (fname : string) (args : list json) (kwargs : dict json)
| LogException (e : exn)                          (* logger.exception *)
| LogResponse (response : json) (status : Z).     (* response_log.info *)

(** A computation that leaves a trace and returns or raises. *)
Definition M (A : Type) : Type := (list event * outcome A)%type.

Definition ret {A} (a : A) : M A := ([], Returns a).
Definition raise {A} (e : exn) : M A := ([], Raises e).
Definition emit (ev : event) : M unit := ([ev], Returns tt).
Definition lift {A} (o : outcome A) : M A := ([], o).

Definition bind {A B} (m : M A) (k : A -> M B) : M B :=
  match m with
  | (t, Returns a) => let (t', r) := k a in (t ++ t', r)
  | (t, Raises e) => (t, Raises e)
  end.

(** [try: m except ... as e: h e], where [catches] tells which exceptions
    the clauses take; any other one goes on to the caller, and so does an
    exception raised by [h] itself. *)
Definition try_except {A} (m : M A) (catches : exn -> bool) (h : exn -> M A)
  : M A :=
  match m with
  | (t, Raises e) =>
      if catches e then let (t', r) := h e in (t ++ t', r)
      else (t, Raises e)
  | (t, Returns a) => (t, Returns a)
  end.

Definition trace {A} (m : M A) : list event := fst m.
Definition result {A} (m : M A) : outcome A := snd m.

Declare Scope py_scope.
Delimit Scope py_scope with py.
Notation "x <- m ;; k" := (bind m (fun x => k))
  (at level 61, m at next level, right associativity) : py_scope.
Notation "' p <- m ;; k" := (bind m (fun x => match x with p => k end))
  (at level 61, p pattern, m at next level, right associativity) : py_scope.
Notation "m ;; k" := (bind m (fun _ => k))
  (at level 61, right associativity) : py_scope.
Local Open Scope py_scope.

Definition is_None (v : json) : bool :=
  match v with JNull => true | _ => false end.

(** [v[k]] for a string [k]. *)
Definition getitem (v : json) (k : string) : outcome json :=
  match v with
  | JObj d =>
      match dict_lookup d k with
      | Some x => Returns x
      | None => Raises (KeyError (JStr k))
      end
  | _ => Raises (TypeError "indices must be integers, or object is not subscriptable")
  end.

(** [v.get(k)]. *)
Definition get (v : json) (k : string) : outcome json :=
  match v with
  | JObj d => Returns (dict_get d k)
  | _ => Raises (AttributeError "object has no attribute 'get'")
  end.

(** [d.pop(k)] with no default. *)
Definition pop (v : json) (k : string) : outcome json :=
  match v with
  | JObj d =>
      match dict_lookup d k with
      | Some _ => Returns (JObj (dict_remove d k))
      | None => Raises (KeyError (JStr k))
      end
  | JArr _ => Raises (TypeError "'str' object cannot be interpreted as an integer")
  | _ => Raises (AttributeError "object has no attribute 'pop'")
  end.

(** [response['error'].pop('data')]; the inner dict is changed in place,
    so the response holds the shortened error object afterwards. *)
Definition pop_error_data (response : json) : outcome json :=
  match getitem response "error" with
  | Raises e => Raises e
  | Returns err =>
      match pop err "data" with
      | Raises e => Raises e
      | Returns err' =>
          match response with
          | JObj d => Returns (JObj (dict_set d "error" err'))
          | _ => Returns response
          end
      end
  end.

Definition _convert_params_to_args_and_kwargs (params : json)
  : option (list json) * option (dict json) :=
  match params with
  | JObj d => (None, Some d)
  | JArr l => (Some l, None)
  | _ => (None, None)
  end.

(** Modelled from the spec: [rpc.py] is not among the sources.  A success
    document has the keys [jsonrpc], [result] and [id]. *)
Definition rpc_success_response (request_id result : json) : json :=
  JObj [("jsonrpc", JStr "2.0"); ("result", result); ("id", request_id)].

(** Modelled from the spec: [json.loads(str(e))] for a taxonomy error,
    whose [__str__] lives in [exceptions.py].  The error object has [code]
    and [message], and [data] only when the error carries data; [id] is
    there only when the error has a request id.  [dispatch_str] relies on
    the same reading: it returns the document of [ParseError()] as it is,
    whatever the debug flag, and that document is to have no [data]. *)
Definition error_document (e : JsonRpcServerError) : json :=
  JObj
    ([("jsonrpc", JStr "2.0");
      ("error",
        JObj ([("code", JInt (jsonrpc_status_code e)); ("message", JStr (text e))]
              ++ (if is_None (data e) then [] else [("data", data e)])))]
     ++ (if is_None (request_id e) then [] else [("id", request_id e)])).

Definition set_request_id (e : JsonRpcServerError) (rid : json) : JsonRpcServerError :=
  mkError (http_status_code e) (jsonrpc_status_code e) (text e) (data e) rid.

Section WithPlatform.
Context `{P : Platform}.

(** Modelled from the spec: the error taxonomy of [exceptions.py], with
    the codes and statuses of the spec's table; the argument of a
    constructor is the error's data. *)
Definition taxonomy (status code : Z) (data : json) : JsonRpcServerError :=
  mkError status code (status_text code) data JNull.

(** Modelled from the spec: [ParseError()], code -32700, status 400, no data. *)
Definition ParseError : JsonRpcServerError := taxonomy 400 (-32700) JNull.

(** Modelled from the spec: [InvalidRequest(data)], code -32600, status 400. *)
Definition InvalidRequest (data : json) : JsonRpcServerError :=
  taxonomy 400 (-32600) data.

(** Modelled from the spec: [MethodNotFound(data)], code -32601, status 404. *)
Definition MethodNotFound (data : json) : JsonRpcServerError :=
  taxonomy 404 (-32601) data.

(** Modelled from the spec: [InvalidParams(data)], code -32602, status 400. *)
Definition InvalidParams (data : json) : JsonRpcServerError :=
  taxonomy 400 (-32602) data.

(** Modelled from the spec: [ServerError(data)], code -32000, status 500. *)
Definition ServerError (data : json) : JsonRpcServerError :=
  taxonomy 500 (-32000) data.

(** [_call(func, *args, **kwargs)].  [signature(func).bind] checks the
    arguments against the signature; the bound arguments it hands back
    give every parameter of [func] the value the original call would, so
    the body runs on [args] and [kwargs]. *)
Definition _call (func : handler) (args : list json) (kwargs : dict json) : M json :=
  emit (Bind (__name__ func) args kwargs) ;;
  match signature_bind func args kwargs with
  | Some msg => raise (TaxonomyError (InvalidParams (JStr msg)))
  | None =>
      emit (Invoke (__name__ func) args kwargs) ;;
      lift (body func args kwargs)
  end.

(** A call [_call(method, ..., **keyword_args)] as Python binds it to
    [def _call(func, ...)]: a keyword argument named [func] is a second
    value for the first parameter, a [TypeError] raised at the call,
    before the body of [_call] runs. *)
Definition call__call (method : handler) (args : list json) (kwargs : dict json)
  : M json :=
  match dict_lookup kwargs "func" with
  | Some _ => raise (TypeError "_call() got multiple values for argument 'func'")
  | None => _call method args kwargs
  end.

Record Dispatcher : Type := mkDispatcher {
  _rpc_methods : dict handler;
  validate_requests : bool;
  debug : bool
}.

(** [Dispatcher.__init__]. *)
Definition init (debug : bool) : Dispatcher := mkDispatcher [] true debug.

Definition register_method (self : Dispatcher) (func : handler) (name : option string)
  : Dispatcher * handler :=
  let name := match name with None => __name__ func | Some n => n end in
  (mkDispatcher (dict_set (_rpc_methods self) name func)
     (validate_requests self) (debug self),
   func).

Definition method (self : Dispatcher) (name : string) (f : handler)
  : Dispatcher * handler :=
  register_method self f (Some name).

(** [self._rpc_methods[request_method]], with [KeyError] turned into
    [MethodNotFound]; a list or dict is unhashable. *)
Definition lookup_method (self : Dispatcher) (request_method : json) : M handler :=
  emit (Lookup request_method) ;;
  match request_method with
  | JStr name =>
      match dict_lookup (_rpc_methods self) name with
      | Some func => ret func
      | None => raise (TaxonomyError (MethodNotFound request_method))
      end
  | JArr _ | JObj _ => raise (TypeError "unhashable type")
  | _ => raise (TaxonomyError (MethodNotFound request_method))
  end.

Definition unpack {A} (o : option (list A)) : list A :=
  match o with Some l => l | None => [] end.

(** The body of the [try] block of [dispatch]. *)
Definition dispatch_try (self : Dispatcher) (request : json) : M (json * Z) :=
  (if validate_requests self then
     match schema_violation request with
     | Some message => raise (TaxonomyError (InvalidRequest (JStr message)))
     | None => ret tt
     end
   else ret tt) ;;
  request_method <- lift (getitem request "method") ;;
  params <- lift (get request "params") ;;
  let '(positional_args, keyword_args) :=
    _convert_params_to_args_and_kwargs params in
  method <- lookup_method self request_method ;;
  let result := JNull in
  result <- (if negb (truthy_opt positional_args) && negb (truthy_opt keyword_args)
             then call__call method [] [] else ret result) ;;
  result <- (if truthy_opt positional_args && negb (truthy_opt keyword_args)
             then call__call method (unpack positional_args) [] else ret result) ;;
  result <- (if negb (truthy_opt positional_args) && truthy_opt keyword_args
             then call__call method [] (unpack keyword_args) else ret result) ;;
  request_id <- lift (get request "id") ;;
  if negb (is_None request_id) then
    ret (rpc_success_response request_id result, 200%Z)
  else
    ret (JNull, 204%Z).

(** The two [except] clauses of [dispatch]; together they take every
    [Exception]. *)
Definition dispatch_except (self : Dispatcher) (request : json) (e : exn)
  : M (json * Z) :=
  match e with
  | TaxonomyError e =>
      rid <- lift (get request "id") ;;
      let e := set_request_id e rid in
      let response := error_document e in
      let status := http_status_code e in
      response <- (if negb (debug self) then lift (pop_error_data response)
                   else ret response) ;;
      ret (response, status)
  | _ =>
      emit (LogException e) ;;
      let response := error_document (ServerError (JStr "See server logs")) in
      response <- (if negb (debug self) then lift (pop_error_data response)
                   else ret response) ;;
      ret (response, 500%Z)
  end.

(** [HTTP_STATUS_CODES[status]]. *)
Definition HTTP_STATUS_CODES_getitem (status : Z) : outcome string :=
  match http_reason status with
  | Some reason => Returns reason
  | None => Raises (KeyError (JInt status))
  end.

(** The log line after the [try] block: its arguments are evaluated
    first, so a status that is not in the table raises before anything
    is logged.  Modelled from the spec: [sort_response] of [rpc.py], not
    among the sources, orders the keys of whatever response it is given
    and does not fail. *)
Definition log_response (response : json) (status : Z) : M unit :=
  reason <- lift (HTTP_STATUS_CODES_getitem status) ;;
  emit (LogResponse response status).

Definition dispatch (self : Dispatcher) (request : json) : M (json * Z) :=
  emit (LogRequest request) ;;
  ' (response, status) <-
    try_except (dispatch_try self request) is_Exception
      (dispatch_except self request) ;;
  log_response response status ;;
  ret (response, status).

Definition dispatch_str (self : Dispatcher) (request : string) : M (json * Z) :=
  match json_loads request with
  | None => ret (error_document ParseError, 400%Z)
  | Some request => dispatch self request
  end.

End WithPlatform.

End dispatcher.

(** * A concrete platform and sample handlers

    The theorems below hold for every [Platform].  The instances here give
    them concrete inputs to run on. *)

Module sample.
Import dispatcher.

Definition is_ws (c : ascii) : bool :=
  (Ascii.eqb c " " || Ascii.eqb c "009" || Ascii.eqb c "010" || Ascii.eqb c "013")%bool.

Fixpoint skip_ws (s : string) : string :=
  match s with
  | String c rest => if is_ws c then skip_ws rest else s
  | EmptyString => s
  end.

Fixpoint strip_prefix (p s : string) : option string :=
  match p, s with
  | EmptyString, _ => Some s
  | String a p', String b s' => if Ascii.eqb a b then strip_prefix p' s' else None
  | String _ _, EmptyString => None
  end.

(** Decimal digits, most significant first. *)
Fixpoint read_digits (acc : Z) (seen : bool) (s : string) : option (Z * string) :=
  match s with
  | String c rest =>
      if request.is_digit c then
        read_digits (10 * acc + Z.of_N (N_of_ascii c - 48)) true rest
      else if seen then Some (acc, s) else None
  | EmptyString => if seen then Some (acc, s) else None
  end.

(** The inside of a string literal, up to the closing quote; escapes and
    control characters are not read. *)
Fixpoint read_string (s : string) : option (string * string) :=
  match s with
  | EmptyString => None
  | String c rest =>
      if Ascii.eqb c "034" then Some (EmptyString, rest)
      else if (Ascii.eqb c "092" || N.ltb (N_of_ascii c) 32)%bool then None
      else
        match read_string rest with
        | Some (str, rest') => Some (String c str, rest')
        | None => None
        end
  end.

Fixpoint read_value (fuel : nat) (s : string) : option (json * string) :=
  match fuel with
  | O => None
  | S fuel =>
      match skip_ws s with
      | String "[" rest =>
          match skip_ws rest with
          | String "]" rest' => Some (JArr [], rest')
          | _ => read_items fuel rest []
          end
      | String "{" rest =>
          match skip_ws rest with
          | String "}" rest' => Some (JObj [], rest')
          | _ => read_members fuel rest []
          end
      | String "034" rest =>
          match read_string rest with
          | Some (str, rest') => Some (JStr str, rest')
          | None => None
          end
      | String "-" rest =>
          match read_digits 0 false rest with
          | Some (n, rest') => Some (JInt (- n), rest')
          | None => None
          end
      | String c rest as t =>
          if request.is_digit c then
            match read_digits 0 false t with
            | Some (n, rest') => Some (JInt n, rest')
            | None => None
            end
          else
            match strip_prefix "null" t, strip_prefix "true" t, strip_prefix "false" t with
            | Some rest', _, _ => Some (JNull, rest')
            | _, Some rest', _ => Some (JBool true, rest')
            | _, _, Some rest' => Some (JBool false, rest')
            | _, _, _ => None
            end
      | EmptyString => None
      end
  end
with read_items (fuel : nat) (s : string) (acc : list json) : option (json * string) :=
  match fuel with
  | O => None
  | S fuel =>
      match read_value fuel s with
      | Some (v, rest) =>
          match skip_ws rest with
          | String "," rest' => read_items fuel rest' (acc ++ [v])
          | String "]" rest' => Some (JArr (acc ++ [v]), rest')
          | _ => None
          end
      | None => None
      end
  end
with read_members (fuel : nat) (s : string) (acc : dict json) : option (json * string) :=
  match fuel with
  | O => None
  | S fuel =>
      match skip_ws s with
      | String "034" rest =>
          match read_string rest with
          | Some (key, rest1) =>
              match skip_ws rest1 with
              | String ":" rest2 =>
                  match read_value fuel rest2 with
                  | Some (v, rest3) =>
                      match skip_ws rest3 with
                      | String "," rest4 => read_members fuel rest4 (dict_set acc key v)
                      | String "}" rest4 => Some (JObj (dict_set acc key v), rest4)
                      | _ => None
                      end
                  | None => None
                  end
              | _ => None
              end
          | None => None
          end
      | _ => None
      end
  end.

(** A reader for JSON text without escapes, fractions and exponents. *)
Definition loads (s : string) : option json :=
  match read_value (S (String.length s)) s with
  | Some (v, rest) =>
      match skip_ws rest with
      | EmptyString => Some v
      | _ => None
      end
  | None => None
  end.

(** Modelled from the spec: [request-schema.json] is not among the
    sources.  A request is an object with [jsonrpc] equal to "2.0", a
    string [method], [params] (if any) an object or an array, and [id] (if
    any) a string, a number or null. *)
Definition request_schema (request : json) : option string :=
  match request with
  | JObj d =>
      match dict_lookup d "jsonrpc" with
      | Some (JStr v) =>
          if String.eqb v "2.0" then
            match dict_lookup d "method" with
            | Some (JStr _) =>
                match dict_lookup d "params" with
                | None | Some (JObj _) | Some (JArr _) =>
                    match dict_lookup d "id" with
                    | None | Some JNull | Some (JStr _) | Some (JInt _)
                    | Some (JFloat _) => None
                    | Some _ => Some "'id' is not valid under any of the given schemas"
                    end
                | Some _ => Some "'params' is not valid under any of the given schemas"
                end
            | Some _ => Some "'method' is not of type 'string'"
            | None => Some "'method' is a required property"
            end
          else Some "'jsonrpc' is not one of ['2.0']"
      | Some _ => Some "'jsonrpc' is not one of ['2.0']"
      | None => Some "'jsonrpc' is a required property"
      end
  | _ => Some "request is not of type 'object'"
  end.

(** The statuses with a reason phrase. *)
Definition reasons (status : Z) : option string :=
  if Z.eqb status 200 then Some "OK"
  else if Z.eqb status 204 then Some "No Content"
  else if Z.eqb status 400 then Some "Bad Request"
  else if Z.eqb status 403 then Some "Forbidden"
  else if Z.eqb status 404 then Some "Not Found"
  else if Z.eqb status 500 then Some "Internal Server Error"
  else None.

Definition messages (code : Z) : string :=
  if Z.eqb code (-32700) then "Parse error"
  else if Z.eqb code (-32600) then "Invalid request"
  else if Z.eqb code (-32601) then "Method not found"
  else if Z.eqb code (-32602) then "Invalid params"
  else "Server error".

Lemma reasons_known (status : Z) :
  In status [200; 204; 400; 404; 500]%Z -> reasons status <> None.
Proof.
  intros H. repeat (destruct H as [<-|H]; [discriminate|]). destruct H.
Qed.

#[export] Instance platform : Platform := {|
  json_loads := loads;
  schema_violation := request_schema;
  status_text := messages;
  http_reason := reasons;
  http_reason_known := reasons_known
|}.

(** [def ping(): return 'pong'] *)
Definition ping : handler := {|
  __name__ := "ping";
  signature_bind := fun args kwargs =>
    if (truthy args || truthy kwargs)%bool then Some "too many arguments" else None;
  body := fun _ _ => Returns (JStr "pong")
|}.

(** A handler that takes any arguments and returns them: a list of the
    positional ones and a dict of the named ones. *)
Definition echo : handler := {|
  __name__ := "echo";
  signature_bind := fun _ _ => None;
  body := fun args kwargs => Returns (JArr [JArr args; JObj kwargs])
|}.

(** [def refuse(): raise ParseError()]: a taxonomy error without data. *)
Definition refuse : handler := {|
  __name__ := "refuse";
  signature_bind := fun args kwargs =>
    if (truthy args || truthy kwargs)%bool then Some "too many arguments" else None;
  body := fun _ _ => Raises (TaxonomyError ParseError)
|}.

(** [def crash(): raise ValueError('boom')] *)
Definition crash : handler := {|
  __name__ := "crash";
  signature_bind := fun _ _ => None;
  body := fun _ _ => Raises (OtherException "ValueError" "boom")
|}.

Definition server (debug : bool) : Dispatcher :=
  let d := init debug in
  let d := fst (register_method d ping None) in
  let d := fst (register_method d echo None) in
  let d := fst (register_method d refuse None) in
  fst (register_method d crash None).

(** JSON text written with single quotes, for readability: every ['] is
    turned into the double quote. *)
Fixpoint quote_json (s : string) : string :=
  match s with
  | EmptyString => EmptyString
  | String c rest =>
      String (if Ascii.eqb c "'" then "034"%char else c) (quote_json rest)
  end.

(** The request with [jsonrpc], [method], [params] if given, and id 1. *)
Definition call_request (m : string) (params : option json) : dict json :=
  [("jsonrpc", JStr "2.0"); ("method", JStr m)]
  ++ match params with Some p => [("params", p)] | None => [] end
  ++ [("id", JInt 1)].

(** The same without an id. *)
Definition notify_request (m : string) : dict json :=
  [("jsonrpc", JStr "2.0"); ("method", JStr m)].

End sample.


(** * Vocabulary of the statements *)

(** No letter of A-Z occurs in the string. *)
Fixpoint no_upper (s : string) : bool :=
  match s with
  | EmptyString => true
  | String c rest => (negb (request.is_upper c) && no_upper rest)%bool
  end.

(** The calls [_call] has checked against a signature, in order. *)
Fixpoint attempted (t : list dispatcher.event)
  : list (string * list json * dict json) :=
  match t with
  | [] => []
  | dispatcher.Bind f a k :: rest => (f, a, k) :: attempted rest
  | _ :: rest => attempted rest
  end.

(** The calls that reached a handler's body, in order. *)
Fixpoint invoked (t : list dispatcher.event)
  : list (string * list json * dict json) :=
  match t with
  | [] => []
  | dispatcher.Invoke f a k :: rest => (f, a, k) :: invoked rest
  | _ :: rest => invoked rest
  end.

(** The [error] object of a response document, and its [data] member. *)
Definition error_of (response : json) : option (dict json) :=
  match response with
  | JObj d =>
      match dict_lookup d "error" with
      | Some (JObj err) => Some err
      | _ => None
      end
  | _ => None
  end.

Definition error_data (response : json) : option json :=
  match error_of response with
  | Some err => dict_lookup err "data"
  | None => None
  end.

Definition error_code (response : json) : option json :=
  match error_of response with
  | Some err => dict_lookup err "code"
  | None => None
  end.

(** The arguments [dispatch] hands to [_call] for a given [params]. *)
Definition call_arguments (params : json) : list json * dict json :=
  let '(positional_args, keyword_args) :=
    dispatcher._convert_params_to_args_and_kwargs params in
  (dispatcher.unpack positional_args, dispatcher.unpack keyword_args).

(** The trace shows one call of [func], with these arguments: they were
    checked against its signature once, and its body ran once if the
    signature takes them and not at all if it does not. *)
Definition sole_call (t : list dispatcher.event) (func : dispatcher.handler)
    (args : list json) (kwargs : dict json) : Prop :=
  attempted t = [(dispatcher.__name__ func, args, kwargs)]
  /\ invoked t =
     match dispatcher.signature_bind func args kwargs with
     | None => [(dispatcher.__name__ func, args, kwargs)]
     | Some _ => []
     end.

(** The same error without its data. *)
Definition without_data (e : JsonRpcServerError) : JsonRpcServerError :=
  mkError (http_status_code e) (jsonrpc_status_code e) (text e) JNull (request_id e).

(** ** Vocabulary of the further properties *)

Fixpoint string_take (n : nat) (s : string) : string :=
  match n, s with
  | S k, String c rest => String c (string_take k rest)
  | _, _ => EmptyString
  end.

Fixpoint string_skip (n : nat) (s : string) : string :=
  match n, s with
  | S k, String _ rest => string_skip k rest
  | _, _ => s
  end.

(** The string without its underscores. *)
Fixpoint drop_underscores (s : string) : string :=
  match s with
  | EmptyString => EmptyString
  | String c rest =>
      if Ascii.eqb c "_" then drop_underscores rest
      else String c (drop_underscores rest)
  end.

(** The registry lookups of a trace, in order. *)
Fixpoint looked_up (t : list dispatcher.event) : list json :=
  match t with
  | [] => []
  | dispatcher.Lookup name :: rest => name :: looked_up rest
  | _ :: rest => looked_up rest
  end.

(** The exceptions written to the log, in order. *)
Fixpoint logged_exceptions (t : list dispatcher.event) : list exn :=
  match t with
  | [] => []
  | dispatcher.LogException e :: rest => e :: logged_exceptions rest
  | _ :: rest => logged_exceptions rest
  end.

(** What an [except] clause of [dispatch] answers for an error: the
    document as serialized when debug is on, without its data when debug
    is off. *)
Definition answer_document (debug : bool) (e : JsonRpcServerError) : json :=
  if debug then dispatcher.error_document e
  else dispatcher.error_document (without_data e).

(** A matcher that consumes at least one character and whose replacement
    is the matched text up to underscores. *)
Definition inserts_underscores (m : request.matcher) : Prop :=
  forall t n repl, m t = Some (n, repl) ->
    1 <= n /\ drop_underscores repl = drop_underscores (string_take n t).

(** One step of the loop of [convert_camel_case_keys]. *)
Definition convert_entry (new_dict : dict json) (kv : string * json) : dict json :=
  dict_set new_dict (request.convert_camel_case_string (fst kv))
    (request.convert_camel_case_value (snd kv)).

(** A handler that turns its caller down with a taxonomy error that
    carries data: [raise InvalidParams('denied')]. *)
Definition deny : dispatcher.handler := {|
  dispatcher.__name__ := "deny";
  dispatcher.signature_bind := fun _ _ => None;
  dispatcher.body := fun _ _ =>
    Raises (TaxonomyError
              (dispatcher.InvalidParams (P := sample.platform) (JStr "denied")))
|}.

(** The arguments of the call a request stands for: the members of an
    object [params] as keyword arguments, the elements of an array
    [params] by position, and no arguments otherwise. *)
Definition request_arguments (request : dict json)
    (args : list json) (kwargs : dict json) : Prop :=
  match dict_lookup request "params" with
  | Some (JObj d) => args = [] /\ kwargs = d
  | Some (JArr l) => args = l /\ kwargs = []
  | _ => args = [] /\ kwargs = []
  end.

(** What the log line after the [try] block leaves of an outcome: a pair
    whose status has no reason phrase becomes a [KeyError]. *)
Definition after_log_line `{P : dispatcher.Platform} (o : outcome (json * Z))
  : outcome (json * Z) :=
  match o with
  | Returns (response, status) =>
      match dispatcher.http_reason status with
      | Some _ => Returns (response, status)
      | None => Raises (KeyError (JInt status))
      end
  | Raises e => Raises e
  end.

(** A handler that answers with a status no table knows:
    [raise JsonRpcServerError(418, -32099, 'Teapot', 'short and stout')]. *)
Definition teapot : dispatcher.handler := {|
  dispatcher.__name__ := "teapot";
  dispatcher.signature_bind := fun _ _ => None;
  dispatcher.body := fun _ _ =>
    Raises (TaxonomyError
              (mkError 418 (-32099) "Teapot" (JStr "short and stout") JNull))
|}.

(** * Properties of request.py *)

Section CamelCase.
Import request.

Lemma lower_char_not_upper (c : ascii) : is_upper (lower_char c) = false.
Proof.
  destruct c as [[] [] [] [] [] [] [] []]; vm_compute; reflexivity.
Qed.

Lemma lower_no_upper (s : string) : no_upper (lower s) = true.
Proof.
  induction s as [|c s IH]; simpl; [reflexivity|].
  now rewrite lower_char_not_upper, IH.
Qed.

Lemma lower_char_lower_char (c : ascii) : lower_char (lower_char c) = lower_char c.
Proof.
  destruct c as [[] [] [] [] [] [] [] []]; vm_compute; reflexivity.
Qed.

Lemma lower_lower (s : string) : lower (lower s) = lower s.
Proof.
  induction s as [|c s IH]; simpl; [reflexivity|].
  now rewrite lower_char_lower_char, IH.
Qed.

Lemma word_boundary_no_upper (s : string) :
  no_upper s = true -> word_boundary s = None.
Proof.
  destruct s as [|c [|u [|l rest]]]; simpl; try reflexivity.
  intros H. apply andb_prop in H as [_ H]. apply andb_prop in H as [Hu _].
  apply negb_true_iff in Hu. rewrite Hu, andb_false_r. reflexivity.
Qed.

Lemma hump_no_upper (s : string) : no_upper s = true -> hump s = None.
Proof.
  destruct s as [|c [|u rest]]; simpl; try reflexivity.
  intros H. apply andb_prop in H as [_ H]. apply andb_prop in H as [Hu _].
  apply negb_true_iff in Hu. rewrite Hu, andb_false_r. reflexivity.
Qed.

(** A pattern that needs an uppercase letter leaves a text without one
    as it is. *)
Lemma re_sub_no_upper (m : matcher) (s : string) :
  (forall t, no_upper t = true -> m t = None) ->
  no_upper s = true -> re_sub m s = s.
Proof.
  intros Hm. unfold re_sub. induction s as [|c s IH]; [reflexivity|].
  intros H. simpl. rewrite (Hm _ H).
  simpl in H. apply andb_prop in H as [_ H]. now rewrite (IH H).
Qed.

Lemma convert_no_upper (s : string) :
  no_upper (convert_camel_case_string s) = true.
Proof. unfold convert_camel_case_string. apply lower_no_upper. Qed.

(** Without a letter A-Z neither pattern matches: the name is only
    lowercased. *)
Lemma convert_of_no_upper (s : string) :
  no_upper s = true -> convert_camel_case_string s = lower s.
Proof.
  intros H. unfold convert_camel_case_string.
  rewrite (re_sub_no_upper _ s word_boundary_no_upper H).
  now rewrite (re_sub_no_upper _ s hump_no_upper H).
Qed.

End CamelCase.

(** C7. The camelCase-to-snake_case conversion is idempotent: converting
    an already converted string changes nothing. *)
Theorem convert_camel_case_string_idempotent (s : string) :
  request.convert_camel_case_string (request.convert_camel_case_string s)
  = request.convert_camel_case_string s.
Proof.
  rewrite (convert_of_no_upper _ (convert_no_upper s)).
  unfold request.convert_camel_case_string. apply lower_lower.
Qed.

Example camel_case_plain :
  request.convert_camel_case_string "camelCase" = "camel_case".
Proof. reflexivity. Qed.

Example camel_case_acronym :
  request.convert_camel_case_string "HTTPResponseCode2X" = "http_response_code2_x".
Proof. reflexivity. Qed.

Example camel_case_second_pass :
  request.convert_camel_case_string "aBcDe" = "a_bc_de".
Proof. reflexivity. Qed.

Section Arguments.
Import request.

Lemma truthy_dict_set {V} (d : dict V) (k : string) (v : V) :
  truthy (dict_set d k v) = true.
Proof. destruct d as [|[k' v'] rest]; simpl; [|destruct (String.eqb k' k)]; reflexivity. Qed.

Lemma truthy_fold_left {A B} (f : list A -> B -> list A) (l : list B) (acc : list A) :
  (forall a b, truthy (f a b) = true) ->
  truthy (fold_left f l acc) = (truthy acc || truthy l)%bool.
Proof.
  intros Hf. revert acc. induction l as [|b l IH]; intros acc; simpl.
  - now rewrite orb_false_r.
  - rewrite IH, Hf. simpl. now rewrite orb_true_r.
Qed.

(** Converting the keys never empties a dict and never fills an empty one. *)
Lemma truthy_convert_camel_case_keys (d : dict json) :
  truthy (convert_camel_case_keys d) = truthy d.
Proof.
  unfold convert_camel_case_keys.
  exact (truthy_fold_left (A := string * json) _ d []
           (fun a b => truthy_dict_set a _ _)).
Qed.

(** The recursion of [convert_camel_case_keys] into a nested dict is the
    function itself. *)
Lemma convert_camel_case_value_dict (d : dict json) :
  convert_camel_case_value (JObj d) = JObj (convert_camel_case_keys d).
Proof.
  unfold convert_camel_case_keys. cbn [convert_camel_case_value]. f_equal.
  generalize (@nil (string * json)) as acc.
  induction d as [|[key v] rest IH]; intros acc; [reflexivity|].
  cbn [fold_left fst snd]. apply IH.
Qed.

(** The assertion of [get_arguments] cannot fail: the two branches of the
    type test fill at most one of the two collections. *)
Lemma get_arguments_returns (params context : supplied json) :
  get_arguments params context =
  Returns
    (match params with Given (JArr l) => l | _ => [] end,
     let nameds := match params with Given (JObj d) => d | _ => [] end in
     match context with
     | Given c => dict_set nameds "context" c
     | UNSPECIFIED => nameds
     end).
Proof.
  unfold get_arguments.
  destruct params as [|[ | | | | | l | d]]; simpl; try reflexivity.
  now rewrite andb_false_r.
Qed.

(** Construction cannot fail, and it keeps the id. *)
Lemma init_returns (method : string) (jsonrpc : option string)
    (params : supplied json) (id : request_id) (convert_camel_case : bool)
    (context : supplied json) :
  exists r,
    init method jsonrpc params id convert_camel_case context = Returns r
    /\ request.id r = id.
Proof.
  unfold init.
  destruct (is_list_or_dict params); [rewrite get_arguments_returns|];
    destruct convert_camel_case; eexists; split; reflexivity.
Qed.

End Arguments.

(** C3, at an input where the code misses it.  The params are a bare
    number.  [get_arguments], whose docstring promises a [TypeError] for
    params that are present and neither a list nor a dict, matches
    neither type test, passes its assertion and returns empty arguments;
    Request construction and [_convert_params_to_args_and_kwargs] go on
    likewise.  None of them fails. *)
Theorem scalar_params_do_not_fail :
  request.get_arguments (request.Given (JInt 5)) request.UNSPECIFIED
    = Returns ([], [])
  /\ request.init "subtract" None (request.Given (JInt 5)) (request.Id (JInt 1))
       false request.UNSPECIFIED
     = Returns (request.mkRequest None "subtract" [] [] (request.Id (JInt 1)))
  /\ dispatcher._convert_params_to_args_and_kwargs (JInt 5) = (None, None).
Proof. repeat split. Qed.

(** C4 (as the code has it).  Request construction always succeeds, and
    its args and kwargs are both non-empty exactly when params is a
    non-empty list and a context is supplied; kwargs then holds the single
    key [context].  Params alone never fill both. *)
Theorem args_and_kwargs_both_nonempty
    (method : string) (jsonrpc : option string) (params : request.supplied json)
    (id : request.request_id) (convert_camel_case : bool)
    (context : request.supplied json) :
  exists r,
    request.init method jsonrpc params id convert_camel_case context = Returns r
    /\ ((truthy (request.args r) && truthy (request.kwargs r))%bool =
        match params, context with
        | request.Given (JArr (_ :: _)), request.Given _ => true
        | _, _ => false
        end)
    /\ ((truthy (request.args r) && truthy (request.kwargs r))%bool = true ->
        dict_keys (request.kwargs r) = ["context"])
    /\ (context = request.UNSPECIFIED ->
        (truthy (request.args r) && truthy (request.kwargs r))%bool = false).
Proof.
  unfold request.init.
  destruct params as [|p]; [|destruct p as [ | | | | | l | d]];
    simpl request.is_list_or_dict; cbv iota;
    try rewrite get_arguments_returns;
    try (destruct convert_camel_case; eexists; (split; [reflexivity|]);
         simpl; repeat split; auto; discriminate).
  (* a list *)
  destruct convert_camel_case; eexists; (split; [reflexivity|]);
    destruct context as [|c]; destruct l as [|x l]; simpl;
    repeat split; auto; discriminate.
Qed.

(** C4, refuted as stated: a non-empty list of params together with a
    context gives a Request whose args and kwargs are both non-empty, from
    [get_arguments] and from the constructor alike. *)
Lemma positional_params_with_context :
  request.get_arguments (request.Given (JArr [JInt 1; JInt 2]))
      (request.Given (JStr "ctx"))
    = Returns ([JInt 1; JInt 2], [("context", JStr "ctx")])
  /\ exists r,
       request.init "subtract" None (request.Given (JArr [JInt 1; JInt 2]))
         (request.Id (JInt 1)) false (request.Given (JStr "ctx")) = Returns r
       /\ truthy (request.args r) = true /\ truthy (request.kwargs r) = true.
Proof.
  split; [reflexivity|]. eexists. split; [reflexivity|]. split; reflexivity.
Qed.

(** C6.  A Request is a notification exactly when no id was supplied:
    [is_notification] tests for the [NOID] sentinel, construction keeps
    the id it is given, and a Request built with an explicit null id is
    not a notification. *)
Theorem is_notification_iff_noid :
  (forall r : request.Request,
     request.is_notification r = true <-> request.id r = request.NOID)
  /\ (forall method jsonrpc params id convert_camel_case context,
      exists r,
        request.init method jsonrpc params id convert_camel_case context
          = Returns r
        /\ request.id r = id
        /\ (request.is_notification r = true <-> id = request.NOID))
  /\ (forall method jsonrpc params convert_camel_case context,
      exists r,
        request.init method jsonrpc params (request.Id JNull)
          convert_camel_case context = Returns r
        /\ request.is_notification r = false).
Proof.
  assert (Hiff : forall r, request.is_notification r = true
                           <-> request.id r = request.NOID).
  { intros r. unfold request.is_notification.
    destruct (request.id r); split; congruence. }
  split; [exact Hiff|]. split.
  - intros method jsonrpc params id ccc context.
    destruct (init_returns method jsonrpc params id ccc context) as [r [Hr Hid]].
    exists r. split; [exact Hr|]. split; [exact Hid|].
    rewrite <- Hid. apply Hiff.
  - intros method jsonrpc params ccc context.
    destruct (init_returns method jsonrpc params (request.Id JNull) ccc context)
      as [r [Hr Hid]].
    exists r. split; [exact Hr|].
    unfold request.is_notification. now rewrite Hid.
Qed.

(** * Properties of dispatcher.py *)

Section Dispatch.
Import dispatcher.
Local Open Scope py_scope.
Context `{P : Platform}.

Lemma bind_ret_l {A B} (a : A) (k : A -> M B) : bind (ret a) k = k a.
Proof. unfold bind, ret. destruct (k a). reflexivity. Qed.

Lemma bind_lift_returns {A B} (a : A) (k : A -> M B) :
  bind (lift (Returns a)) k = k a.
Proof. apply bind_ret_l. Qed.

Lemma bind_ret_r {A} (m : M A) : bind m ret = m.
Proof. destruct m as [t [a|e]]; simpl; [rewrite app_nil_r|]; reflexivity. Qed.

Lemma bind_assoc {A B C} (m : M A) (k : A -> M B) (h : B -> M C) :
  bind (bind m k) h = bind m (fun a => bind (k a) h).
Proof.
  destruct m as [t [a|e]]; simpl; [|reflexivity].
  destruct (k a) as [t' [b|e]]; simpl; [|reflexivity].
  destruct (h b) as [t'' r]. now rewrite app_assoc.
Qed.

Lemma result_bind {A B} (m : M A) (k : A -> M B) :
  result (bind m k) =
  match result m with Returns a => result (k a) | Raises e => Raises e end.
Proof.
  destruct m as [t [a|e]]; simpl; [|reflexivity]. now destruct (k a).
Qed.

Lemma trace_bind {A B} (m : M A) (k : A -> M B) :
  trace (bind m k) =
  trace m ++ match result m with Returns a => trace (k a) | Raises _ => [] end.
Proof.
  destruct m as [t [a|e]]; simpl; [|now rewrite app_nil_r]. now destruct (k a).
Qed.

(** ** The call of [_call] *)

Lemma call__call_reaches (func : handler) (args : list json) (kwargs : dict json) :
  dict_lookup kwargs "func" = None ->
  call__call func args kwargs = _call func args kwargs.
Proof. intros H. unfold call__call. now rewrite H. Qed.

Lemma call__call_collides (func : handler) (args : list json) (kwargs : dict json) :
  dict_lookup kwargs "func" <> None ->
  exists msg, call__call func args kwargs = ([], Raises (TypeError msg)).
Proof.
  intros H. unfold call__call.
  destruct (dict_lookup kwargs "func"); [eexists; reflexivity|congruence].
Qed.

Lemma _call_accepted (func : handler) (args : list json) (kwargs : dict json) :
  signature_bind func args kwargs = None ->
  _call func args kwargs
  = ([Bind (__name__ func) args kwargs; Invoke (__name__ func) args kwargs],
     body func args kwargs).
Proof. intros H. unfold _call. rewrite H. now destruct (body func args kwargs). Qed.

Lemma _call_refused (func : handler) (args : list json) (kwargs : dict json)
    (msg : string) :
  signature_bind func args kwargs = Some msg ->
  _call func args kwargs
  = ([Bind (__name__ func) args kwargs],
     Raises (TaxonomyError (InvalidParams (JStr msg)))).
Proof. intros H. unfold _call. now rewrite H. Qed.

Lemma request_arguments_call (request : dict json) (args : list json)
    (kwargs : dict json) :
  request_arguments request args kwargs ->
  call_arguments (dict_get request "params") = (args, kwargs).
Proof.
  unfold request_arguments, dict_get, call_arguments.
  destruct (dict_lookup request "params") as [[ | | | | | l | d]|];
    intros [-> ->]; reflexivity.
Qed.

(** A request that passes validation (where it is switched on) and names
    a registered method: the [try] block looks the method up, makes one
    call, and answers according to the id. *)
Lemma dispatch_try_registered (self : Dispatcher) (request : dict json)
    (name : string) (func : handler) :
  (validate_requests self = true -> schema_violation (JObj request) = None) ->
  dict_lookup request "method" = Some (JStr name) ->
  dict_lookup (_rpc_methods self) name = Some func ->
  dispatch_try self (JObj request) =
  (emit (Lookup (JStr name)) ;;
   result <- call__call func (fst (call_arguments (dict_get request "params")))
                             (snd (call_arguments (dict_get request "params"))) ;;
   if negb (is_None (dict_get request "id")) then
     ret (rpc_success_response (dict_get request "id") result, 200%Z)
   else ret (JNull, 204%Z)).
Proof.
  intros Hvalid Hmethod Hreg. unfold dispatch_try.
  replace (if validate_requests self
           then match schema_violation (JObj request) with
                | Some message => raise (TaxonomyError (InvalidRequest (JStr message)))
                | None => ret tt
                end
           else ret tt) with (@ret unit tt)
    by (destruct (validate_requests self); [rewrite Hvalid|]; reflexivity).
  rewrite bind_ret_l. cbn [getitem get]. rewrite Hmethod, !bind_lift_returns.
  unfold lookup_method, call_arguments. rewrite Hreg.
  destruct (dict_get request "params") as [ | | | | | [|x l] | [|kv d]];
    cbn [_convert_params_to_args_and_kwargs truthy_opt truthy negb andb unpack fst snd];
    destruct (call__call func _ _) as [t [r|e]] eqn:E;
    unfold bind, ret, emit, lift; cbn [app]; rewrite ?E; cbn [app];
    rewrite ?app_nil_r; destruct (is_None (dict_get request "id")); reflexivity.
Qed.

(** The same, for a request whose call reaches the handler. *)
Lemma dispatch_try_reaches (self : Dispatcher) (request : dict json)
    (name : string) (func : handler) (args : list json) (kwargs : dict json) :
  (validate_requests self = true -> schema_violation (JObj request) = None) ->
  dict_lookup request "method" = Some (JStr name) ->
  dict_lookup (_rpc_methods self) name = Some func ->
  request_arguments request args kwargs ->
  dict_lookup kwargs "func" = None ->
  dispatch_try self (JObj request) =
  (emit (Lookup (JStr name)) ;;
   result <- _call func args kwargs ;;
   if negb (is_None (dict_get request "id")) then
     ret (rpc_success_response (dict_get request "id") result, 200%Z)
   else ret (JNull, 204%Z)).
Proof.
  intros Hvalid Hmethod Hreg Hargs Hfunc.
  rewrite (dispatch_try_registered self request name func Hvalid Hmethod Hreg).
  rewrite (request_arguments_call _ _ _ Hargs). cbn [fst snd].
  now rewrite (call__call_reaches _ _ _ Hfunc).
Qed.

(** ** The parts of [dispatch] *)

Lemma after_log_line_known (response : json) (status : Z) :
  In status [200; 204; 400; 404; 500]%Z ->
  after_log_line (Returns (response, status)) = Returns (response, status).
Proof.
  intros H. unfold after_log_line.
  destruct (http_reason status) eqn:E; [reflexivity|].
  destruct (http_reason_known status H E).
Qed.

Lemma after_log_line_returns (o : outcome (json * Z)) (response : json) (status : Z) :
  after_log_line o = Returns (response, status) ->
  o = Returns (response, status) /\ http_reason status <> None.
Proof.
  unfold after_log_line. destruct o as [[r s]|e]; [|discriminate].
  destruct (http_reason s) eqn:E; [|discriminate].
  intros H. inversion H; subst. split; [reflexivity|congruence].
Qed.

(** What [dispatch] returns is what its [try] block returns, or else what
    the matching [except] clause makes of an [Exception], once the log
    line has found the status in its table. *)
Lemma result_dispatch (self : Dispatcher) (request : json) :
  result (dispatch self request) =
  after_log_line
    match result (dispatch_try self request) with
    | Returns rs => Returns rs
    | Raises e =>
        if is_Exception e then result (dispatch_except self request e)
        else Raises e
    end.
Proof.
  unfold dispatch, try_except, log_response, HTTP_STATUS_CODES_getitem,
    after_log_line.
  destruct (dispatch_try self request) as [t [[response status]|e]].
  - cbn. destruct (http_reason status); reflexivity.
  - cbn [result snd]. destruct (is_Exception e); [|reflexivity].
    destruct (dispatch_except self request e) as [t' [[response status]|e']];
      cbn; [destruct (http_reason status)|]; reflexivity.
Qed.

Lemma attempted_app (t u : list event) :
  attempted (t ++ u) = attempted t ++ attempted u.
Proof.
  induction t as [|ev t IH]; [reflexivity|].
  destruct ev; simpl; rewrite IH; reflexivity.
Qed.

Lemma invoked_app (t u : list event) :
  invoked (t ++ u) = invoked t ++ invoked u.
Proof.
  induction t as [|ev t IH]; [reflexivity|].
  destruct ev; simpl; rewrite IH; reflexivity.
Qed.

(** What the [except] clauses write to the log. *)
Lemma trace_dispatch_except (self : Dispatcher) (request : json) (e : exn) :
  trace (dispatch_except self request e) =
  match e with TaxonomyError _ => [] | _ => [LogException e] end.
Proof.
  unfold dispatch_except.
  destruct e as [err| | | | | | ];
    try destruct (get request "id") as [rid|e'];
    rewrite ?bind_lift_returns; try reflexivity; cbv zeta;
    destruct (debug self); cbn [negb]; try reflexivity;
    rewrite ?trace_bind; cbn [lift emit trace result fst snd];
    try destruct (pop_error_data _); reflexivity.
Qed.

(** The trace of a dispatch: the request is logged, the [try] block runs,
    a caught exception outside the taxonomy is logged, and the response
    is logged if there is one. *)
Lemma trace_dispatch (self : Dispatcher) (request : json) :
  trace (dispatch self request) =
  LogRequest request :: trace (dispatch_try self request)
  ++ match result (dispatch_try self request) with
     | Returns _ => []
     | Raises (TaxonomyError _) => []
     | Raises e => if is_Exception e then [LogException e] else []
     end
  ++ match result (dispatch self request) with
     | Returns (response, status) => [LogResponse response status]
     | Raises _ => []
     end.
Proof.
  rewrite result_dispatch.
  unfold dispatch, try_except, log_response, HTTP_STATUS_CODES_getitem,
    after_log_line.
  destruct (dispatch_try self request) as [t [[response status]|e]].
  - cbn. destruct (http_reason status); cbn; now rewrite ?app_nil_r.
  - pose proof (trace_dispatch_except self request e) as Ht.
    cbn [result snd trace fst].
    destruct (is_Exception e) eqn:He.
    + destruct (dispatch_except self request e) as [t' [[response status]|e']];
        cbn [trace fst result snd] in *; subst t';
        destruct e; try discriminate He; cbn;
        try destruct (http_reason status); cbn;
        rewrite <- ?app_assoc, ?app_nil_r; reflexivity.
    + destruct e; try discriminate. cbn. now rewrite app_nil_r.
Qed.

(** Only the [try] block calls handlers. *)
Lemma calls_of_dispatch (self : Dispatcher) (request : json) :
  attempted (trace (dispatch self request))
    = attempted (trace (dispatch_try self request))
  /\ invoked (trace (dispatch self request))
    = invoked (trace (dispatch_try self request)).
Proof.
  rewrite trace_dispatch. cbn [attempted invoked].
  rewrite !attempted_app, !invoked_app.
  assert (Hexc : forall (A : Type) (o : outcome A),
            attempted match o with
                      | Returns _ => []
                      | Raises (TaxonomyError _) => []
                      | Raises e => if is_Exception e then [LogException e] else []
                      end = []
            /\ invoked match o with
                       | Returns _ => []
                       | Raises (TaxonomyError _) => []
                       | Raises e => if is_Exception e then [LogException e] else []
                       end = []).
  { intros A [a|[]]; split; reflexivity. }
  destruct (Hexc _ (result (dispatch_try self request))) as [-> ->].
  destruct (result (dispatch self request)) as [[r s]|e]; cbn;
    now rewrite !app_nil_r.
Qed.

Lemma calls_of__call (func : handler) (args : list json) (kwargs : dict json) :
  sole_call (trace (_call func args kwargs)) func args kwargs.
Proof.
  unfold sole_call, _call.
  destruct (signature_bind func args kwargs) as [msg|]; [split; reflexivity|].
  destruct (body func args kwargs); split; reflexivity.
Qed.

(** The calls of a dispatch that finds its method are those of the one
    call of [_call] it makes. *)
Lemma calls_of_registered (self : Dispatcher) (request : dict json)
    (name : string) (func : handler) :
  (validate_requests self = true -> schema_violation (JObj request) = None) ->
  dict_lookup request "method" = Some (JStr name) ->
  dict_lookup (_rpc_methods self) name = Some func ->
  attempted (trace (dispatch self (JObj request)))
  = attempted (trace (call__call func
                        (fst (call_arguments (dict_get request "params")))
                        (snd (call_arguments (dict_get request "params")))))
  /\ invoked (trace (dispatch self (JObj request)))
  = invoked (trace (call__call func
                      (fst (call_arguments (dict_get request "params")))
                      (snd (call_arguments (dict_get request "params"))))).
Proof.
  intros Hvalid Hmethod Hreg.
  destruct (calls_of_dispatch self (JObj request)) as [-> ->].
  rewrite (dispatch_try_registered self request name func Hvalid Hmethod Hreg).
  set (a := fst (call_arguments (dict_get request "params"))).
  set (k := snd (call_arguments (dict_get request "params"))).
  rewrite !trace_bind.
  change (result (emit (Lookup (JStr name)))) with (Returns tt).
  change (trace (emit (Lookup (JStr name)))) with [Lookup (JStr name)].
  cbv beta iota.
  rewrite !attempted_app, !invoked_app. cbn [attempted invoked app].
  destruct (result (call__call func a k)) as [r|e];
    [destruct (negb (is_None (dict_get request "id")))|];
    cbn; rewrite ?app_nil_r; split; reflexivity.
Qed.

(** When the call reaches the handler, the dispatch shows that one call. *)
Lemma calls_of_reached (self : Dispatcher) (request : dict json)
    (name : string) (func : handler) (args : list json) (kwargs : dict json) :
  (validate_requests self = true -> schema_violation (JObj request) = None) ->
  dict_lookup request "method" = Some (JStr name) ->
  dict_lookup (_rpc_methods self) name = Some func ->
  request_arguments request args kwargs ->
  dict_lookup kwargs "func" = None ->
  sole_call (trace (dispatch self (JObj request))) func args kwargs.
Proof.
  intros Hvalid Hmethod Hreg Hargs Hfunc.
  destruct (calls_of_registered self request name func Hvalid Hmethod Hreg)
    as [Ha Hi].
  rewrite (request_arguments_call _ _ _ Hargs) in Ha, Hi. cbn [fst snd] in Ha, Hi.
  rewrite (call__call_reaches _ _ _ Hfunc) in Ha, Hi.
  unfold sole_call. rewrite Ha, Hi. apply calls_of__call.
Qed.

(** What a dispatch returns when the handler is reached and returns. *)
Lemma dispatch_handler_returns (self : Dispatcher) (request : dict json)
    (name : string) (func : handler) (args : list json) (kwargs : dict json)
    (R : json) :
  (validate_requests self = true -> schema_violation (JObj request) = None) ->
  dict_lookup request "method" = Some (JStr name) ->
  dict_lookup (_rpc_methods self) name = Some func ->
  request_arguments request args kwargs ->
  dict_lookup kwargs "func" = None ->
  signature_bind func args kwargs = None ->
  body func args kwargs = Returns R ->
  result (dispatch self (JObj request))
  = Returns (if negb (is_None (dict_get request "id"))
             then (rpc_success_response (dict_get request "id") R, 200%Z)
             else (JNull, 204%Z)).
Proof.
  intros Hvalid Hmethod Hreg Hargs Hfunc Hsig Hbody.
  rewrite result_dispatch,
    (dispatch_try_reaches self request name func args kwargs
       Hvalid Hmethod Hreg Hargs Hfunc).
  rewrite !result_bind, (_call_accepted _ _ _ Hsig), Hbody.
  cbn [emit result snd].
  destruct (negb (is_None (dict_get request "id"))); cbn [ret result snd];
    apply after_log_line_known; simpl; tauto.
Qed.

(** C1.  A request with an id that is present and not null, naming a
    registered handler that returns [R], is answered with a success
    document whose [result] is [R] and whose [id] is the request's id,
    and with status 200.  The handler returns [R]: the call the request
    stands for reaches it (no keyword argument is named [func], the name
    of the first parameter of [_call]), its signature takes the
    arguments, and its body returns [R] on them.  The request is one that
    passes validation where validation is switched on. *)
Theorem dispatch_success (self : Dispatcher) (request : dict json)
    (name : string) (func : handler) (rid R : json)
    (args : list json) (kwargs : dict json) :
  (validate_requests self = true -> schema_violation (JObj request) = None) ->
  dict_lookup request "method" = Some (JStr name) ->
  dict_lookup (_rpc_methods self) name = Some func ->
  dict_lookup request "id" = Some rid ->
  rid <> JNull ->
  request_arguments request args kwargs ->
  dict_lookup kwargs "func" = None ->
  signature_bind func args kwargs = None ->
  body func args kwargs = Returns R ->
  exists response,
    result (dispatch self (JObj request)) = Returns (response, 200%Z)
    /\ response = rpc_success_response rid R
    /\ getitem response "result" = Returns R
    /\ getitem response "id" = Returns rid.
Proof.
  intros Hvalid Hmethod Hreg Hid Hnn Hargs Hfunc Hsig Hbody.
  exists (rpc_success_response rid R). repeat split.
  rewrite (dispatch_handler_returns self request name func args kwargs R
             Hvalid Hmethod Hreg Hargs Hfunc Hsig Hbody).
  unfold dict_get. rewrite Hid.
  destruct rid; try reflexivity. contradiction.
Qed.

(** C2.  A request whose id is absent, and likewise one whose id is an
    explicit null, is answered with [(None, 204)] when its handler
    completes without raising: the result is dropped.  The handler
    completes: the call the request stands for reaches it (no keyword
    argument is named [func]), its signature takes the arguments, and its
    body returns on them. *)
Theorem dispatch_notification (self : Dispatcher) (request : dict json)
    (name : string) (func : handler) (R : json)
    (args : list json) (kwargs : dict json) :
  (validate_requests self = true -> schema_violation (JObj request) = None) ->
  dict_lookup request "method" = Some (JStr name) ->
  dict_lookup (_rpc_methods self) name = Some func ->
  dict_lookup request "id" = None \/ dict_lookup request "id" = Some JNull ->
  request_arguments request args kwargs ->
  dict_lookup kwargs "func" = None ->
  signature_bind func args kwargs = None ->
  body func args kwargs = Returns R ->
  result (dispatch self (JObj request)) = Returns (JNull, 204%Z).
Proof.
  intros Hvalid Hmethod Hreg Hid Hargs Hfunc Hsig Hbody.
  rewrite (dispatch_handler_returns self request name func args kwargs R
             Hvalid Hmethod Hreg Hargs Hfunc Hsig Hbody).
  unfold dict_get. destruct Hid as [-> | ->]; reflexivity.
Qed.

(** ** Error documents *)

Lemma error_data_document (e : JsonRpcServerError) :
  error_data (error_document e) =
  if is_None (data e) then None else Some (data e).
Proof. destruct e as [st code msg [] rid]; reflexivity. Qed.

Lemma error_code_document (e : JsonRpcServerError) :
  error_code (error_document e) = Some (JInt (jsonrpc_status_code e)).
Proof. destruct e as [st code msg [] rid]; reflexivity. Qed.

(** [pop('data')] has no default: it raises [KeyError] on an error object
    that has no [data] member. *)
Lemma pop_error_data_document (e : JsonRpcServerError) :
  pop_error_data (error_document e) =
  if is_None (data e) then Raises (KeyError (JStr "data"))
  else Returns (error_document (without_data e)).
Proof. destruct e as [st code msg [] []]; reflexivity. Qed.

(** What the [except] clauses return. *)
Lemma result_dispatch_except (self : Dispatcher) (request : json) (e : exn) :
  result (dispatch_except self request e) =
  let answer (err : JsonRpcServerError) (status : Z) : outcome (json * Z) :=
    if debug self then Returns (error_document err, status)
    else if is_None (data err) then Raises (KeyError (JStr "data"))
    else Returns (error_document (without_data err), status) in
  match e with
  | TaxonomyError err =>
      match get request "id" with
      | Returns rid => answer (set_request_id err rid) (http_status_code err)
      | Raises e' => Raises e'
      end
  | _ => answer (ServerError (JStr "See server logs")) 500%Z
  end.
Proof.
  unfold dispatch_except.
  destruct e as [err| | | | | | ];
    try destruct (get request "id") as [rid|e'];
    rewrite ?bind_lift_returns; try reflexivity; cbv zeta;
    rewrite !result_bind; cbn [emit result snd];
    destruct (debug self); cbn [negb]; try reflexivity;
    cbn [lift result snd]; rewrite pop_error_data_document;
    try reflexivity.
  cbn [set_request_id data]. destruct (is_None (data err)); reflexivity.
Qed.

(** One step through a chain of binds: the head either returned or the
    whole chain raised. *)
Ltac step_returns :=
  match goal with
  | |- match ?x with Returns _ => _ | Raises _ => _ end = _ -> _ =>
      destruct x; cbv beta iota; [|intros; discriminate]
  end.

(** What the [try] block returns is a success document with status 200
    or nothing with status 204. *)
Lemma dispatch_try_returns (self : Dispatcher) (request response : json) (status : Z) :
  result (dispatch_try self request) = Returns (response, status) ->
  (response = JNull /\ status = 204%Z)
  \/ (exists rid R, response = rpc_success_response rid R /\ status = 200%Z).
Proof.
  unfold dispatch_try.
  do 3 (rewrite result_bind; step_returns).
  destruct (_convert_params_to_args_and_kwargs _) as [pa ka].
  repeat (rewrite result_bind; step_returns).
  destruct (negb (is_None _)); intros H; inversion H; eauto.
Qed.

(** C8.  Whatever document [dispatch] returns: with debug off, its error
    object (if it has one) has no [data] member; with debug on, the error
    object carries the data of the error that was raised, as it is, when
    there is data (for an exception outside the taxonomy, the data of the
    generic server error). *)
Theorem error_data_follows_debug (self : Dispatcher) (request : json)
    (response : json) (status : Z) :
  result (dispatch self request) = Returns (response, status) ->
  (debug self = false -> error_data response = None)
  /\ (debug self = true ->
      forall e, result (dispatch_try self request) = Raises e ->
        error_data response =
        match e with
        | TaxonomyError err => if is_None (data err) then None else Some (data err)
        | _ => Some (JStr "See server logs")
        end).
Proof.
  rewrite result_dispatch. intros H.
  apply after_log_line_returns in H as [H _]. revert H.
  destruct (result (dispatch_try self request)) as [[r s]|e] eqn:Htry.
  - intros H. inversion H; subst r s.
    split; [|discriminate].
    destruct (dispatch_try_returns _ _ _ _ Htry) as [[-> _]|(rid & R & -> & _)];
      reflexivity.
  - destruct (is_Exception e) eqn:Hexc; [|discriminate].
    rewrite result_dispatch_except. cbv zeta.
    destruct e as [err| | | | | | ]; try discriminate Hexc;
      try destruct (get request "id") as [rid|e']; try discriminate;
      destruct (debug self);
      cbn [set_request_id data without_data is_None ServerError taxonomy];
      try destruct (is_None (data err)) eqn:Hd; try discriminate;
      intros H; inversion H; subst;
      (split; [try discriminate; intros _; rewrite error_data_document; reflexivity
              |try discriminate; intros _ e2 He2; inversion He2; subst;
               rewrite error_data_document;
               cbn [data set_request_id ServerError taxonomy is_None];
               rewrite ?Hd; reflexivity]).
Qed.

Lemma trace_dispatch_nonempty (self : Dispatcher) (request : json) :
  trace (dispatch self request) <> [].
Proof.
  unfold dispatch. rewrite trace_bind. discriminate.
Qed.

(** C9.  Text that does not parse is answered at once with the ParseError
    document, code -32700, and status 400.  The trace is empty: nothing
    was logged, looked up or called, whereas [dispatch] always leaves a
    trace. *)
Theorem dispatch_str_parse_error (self : Dispatcher) (text : string) :
  json_loads text = None ->
  trace (dispatch_str self text) = []
  /\ (exists response,
        result (dispatch_str self text) = Returns (response, 400%Z)
        /\ response = error_document ParseError
        /\ error_code response = Some (JInt (-32700)))
  /\ (forall request, trace (dispatch self request) <> []).
Proof.
  intros Hparse. unfold dispatch_str. rewrite Hparse.
  split; [reflexivity|]. split; [|apply trace_dispatch_nonempty].
  eexists. repeat split.
Qed.

(** How far [dispatch] keeps its promise to return.  For a request that
    is a dict it returns, or it raises in one of three ways: the [pop] of
    the [except] clause finds no data (debug is off and the [try] block
    raised a taxonomy error without data); the log line finds no reason
    for the status of a taxonomy error; or the [try] block raised
    something that is no [Exception]. *)
Lemma dispatch_returns_or_key_error (self : Dispatcher) (request : dict json) :
  (exists response status,
     result (dispatch self (JObj request)) = Returns (response, status))
  \/ (debug self = false
      /\ result (dispatch self (JObj request)) = Raises (KeyError (JStr "data"))
      /\ exists err,
           result (dispatch_try self (JObj request)) = Raises (TaxonomyError err)
           /\ data err = JNull)
  \/ (exists err,
        result (dispatch_try self (JObj request)) = Raises (TaxonomyError err)
        /\ http_reason (http_status_code err) = None
        /\ result (dispatch self (JObj request))
           = Raises (KeyError (JInt (http_status_code err))))
  \/ (exists e,
        result (dispatch_try self (JObj request)) = Raises e
        /\ is_Exception e = false
        /\ result (dispatch self (JObj request)) = Raises e).
Proof.
  rewrite result_dispatch.
  destruct (result (dispatch_try self (JObj request))) as [[r s]|e] eqn:Htry.
  - left. destruct (dispatch_try_returns _ _ _ _ Htry) as [[_ ->]|(_ & _ & _ & ->)];
      rewrite after_log_line_known by (simpl; tauto); eauto.
  - destruct (is_Exception e) eqn:Hexc;
      [|right; right; right; exists e; repeat split; assumption].
    rewrite result_dispatch_except. cbv zeta. cbn [get].
    assert (Hgeneric : forall doc,
              after_log_line (Returns (doc, 500%Z)) = Returns (doc, 500%Z))
      by (intros doc; apply after_log_line_known; simpl; tauto).
    destruct e as [err| | | | | | ]; try discriminate Hexc;
      try (left; destruct (debug self);
           cbn [is_None data ServerError taxonomy];
           rewrite Hgeneric; do 2 eexists; reflexivity).
    assert (Hlog : forall doc,
              (exists response status,
                 after_log_line (Returns (doc, http_status_code err))
                 = Returns (response, status))
              \/ (http_reason (http_status_code err) = None
                  /\ after_log_line (Returns (doc, http_status_code err))
                     = Raises (KeyError (JInt (http_status_code err))))).
    { intros doc. unfold after_log_line.
      destruct (http_reason (http_status_code err)); eauto. }
    destruct (debug self).
    + destruct (Hlog (error_document (set_request_id err (dict_get request "id"))))
        as [H|[Hnone H]]; [left; exact H|].
      right; right; left. exists err. cbn [http_status_code set_request_id] in *.
      repeat split; assumption.
    + cbn [set_request_id data]. destruct (is_None (data err)) eqn:Hd.
      * right; left. repeat split. exists err. split; [reflexivity|].
        destruct (data err); try discriminate; reflexivity.
      * destruct (Hlog (error_document
                          (without_data (set_request_id err (dict_get request "id")))))
          as [H|[Hnone H]]; [left; exact H|].
        right; right; left. exists err. repeat split; assumption.
Qed.

End Dispatch.

(** * The theorems at concrete inputs *)

Import dispatcher.
#[local] Existing Instance sample.platform.

Lemma dispatch_success_witness :
  (validate_requests (sample.server false) = true ->
   schema_violation (JObj (sample.call_request "echo" (Some (JArr [JInt 1]))))
   = None)
  /\ dict_lookup (_rpc_methods (sample.server false)) "echo" = Some sample.echo
  /\ request_arguments (sample.call_request "echo" (Some (JArr [JInt 1])))
       [JInt 1] []
  /\ body sample.echo [JInt 1] [] = Returns (JArr [JArr [JInt 1]; JObj []])
  /\ exists response,
       result (dispatch (sample.server false)
                 (JObj (sample.call_request "echo" (Some (JArr [JInt 1])))))
         = Returns (response, 200%Z)
       /\ response = rpc_success_response (JInt 1) (JArr [JArr [JInt 1]; JObj []])
       /\ getitem response "result" = Returns (JArr [JArr [JInt 1]; JObj []])
       /\ getitem response "id" = Returns (JInt 1).
Proof.
  split; [intros _; reflexivity|].
  split; [reflexivity|]. split; [split; reflexivity|]. split; [reflexivity|].
  apply (dispatch_success (sample.server false)
           (sample.call_request "echo" (Some (JArr [JInt 1])))
           "echo" sample.echo (JInt 1) (JArr [JArr [JInt 1]; JObj []])
           [JInt 1] []);
    [intros _; reflexivity|reflexivity|reflexivity|reflexivity|discriminate
    |split; reflexivity|reflexivity|reflexivity|reflexivity].
Defined.

Lemma dispatch_notification_witness :
  (dict_lookup (sample.notify_request "ping") "id" = None
   \/ dict_lookup (sample.notify_request "ping") "id" = Some JNull)
  /\ request_arguments (sample.notify_request "ping") [] []
  /\ signature_bind sample.ping [] [] = None
  /\ body sample.ping [] [] = Returns (JStr "pong")
  /\ result (dispatch (sample.server false) (JObj (sample.notify_request "ping")))
     = Returns (JNull, 204%Z).
Proof.
  split; [left; reflexivity|]. split; [split; reflexivity|].
  split; [reflexivity|]. split; [reflexivity|].
  apply (dispatch_notification (sample.server false) (sample.notify_request "ping")
           "ping" sample.ping (JStr "pong") [] []);
    [intros _; reflexivity|reflexivity|reflexivity|left; reflexivity
    |split; reflexivity|reflexivity|reflexivity|reflexivity].
Defined.

Lemma error_data_follows_debug_witness :
  result (dispatch (sample.server true) (JObj (sample.call_request "nonexistent" None)))
    = Returns
        (error_document
           (set_request_id (MethodNotFound (JStr "nonexistent")) (JInt 1)),
         404%Z)
  /\ error_data
       (error_document
          (set_request_id (MethodNotFound (JStr "nonexistent")) (JInt 1)))
     = Some (JStr "nonexistent").
Proof.
  split; [reflexivity|].
  destruct (error_data_follows_debug (sample.server true)
              (JObj (sample.call_request "nonexistent" None))
              (error_document
                 (set_request_id (MethodNotFound (JStr "nonexistent")) (JInt 1)))
              404%Z) as [_ Hdebug]; [reflexivity|].
  apply (Hdebug eq_refl (TaxonomyError (MethodNotFound (JStr "nonexistent")))).
  reflexivity.
Defined.

Lemma dispatch_str_parse_error_witness :
  json_loads "{not json" = None
  /\ trace (dispatch_str (sample.server false) "{not json") = []
  /\ exists response,
       result (dispatch_str (sample.server false) "{not json")
         = Returns (response, 400%Z)
       /\ response = error_document ParseError
       /\ error_code response = Some (JInt (-32700)).
Proof.
  split; [reflexivity|].
  destruct (dispatch_str_parse_error (sample.server false) "{not json")
    as (Htrace & Hresp & _); [reflexivity|].
  split; [exact Htrace|exact Hresp].
Defined.

(** The same gap without any handler: validation is off and the method
    is null, so [MethodNotFound(None)] carries no data. *)
Example null_method_without_validation :
  result (dispatch (mkDispatcher [] false false) (JObj [("method", JNull)]))
    = Raises (KeyError (JStr "data")).
Proof. reflexivity. Qed.

(** The spec's scenarios. *)
Example scenario_ping :
  dispatch_str (sample.server false)
    (sample.quote_json "{'jsonrpc': '2.0', 'method': 'ping', 'id': 1}")
  = dispatch (sample.server false) (JObj (sample.call_request "ping" None))
  /\ result (dispatch (sample.server false) (JObj (sample.call_request "ping" None)))
     = Returns
         (JObj [("jsonrpc", JStr "2.0"); ("result", JStr "pong"); ("id", JInt 1)],
          200%Z).
Proof. split; reflexivity. Qed.

Example scenario_unknown_method :
  exists response,
    result (dispatch (sample.server false)
              (JObj (sample.call_request "nonexistent" None)))
      = Returns (response, 404%Z)
    /\ error_code response = Some (JInt (-32601))
    /\ error_data response = None.
Proof. eexists. repeat split. Qed.

Example scenario_handler_crash :
  result (dispatch (sample.server false) (JObj (sample.notify_request "crash")))
    = Returns (error_document (without_data (ServerError (JStr "See server logs"))),
               500%Z).
Proof. reflexivity. Qed.

(** An object [params] without a member named [func] reaches the handler
    as keyword arguments. *)
Example keyword_arguments_reach_the_handler :
  dispatch (sample.server false)
    (JObj (sample.call_request "echo" (Some (JObj [("x", JInt 1)]))))
  = ([LogRequest (JObj (sample.call_request "echo" (Some (JObj [("x", JInt 1)]))));
      Lookup (JStr "echo");
      Bind "echo" [] [("x", JInt 1)]; Invoke "echo" [] [("x", JInt 1)];
      LogResponse
        (rpc_success_response (JInt 1) (JArr [JArr []; JObj [("x", JInt 1)]]))
        200],
     Returns
       (rpc_success_response (JInt 1) (JArr [JArr []; JObj [("x", JInt 1)]]),
        200%Z)).
Proof. reflexivity. Qed.

(** C5, at an input where the code misses it.  The params are an object
    with a member named [func], and the handler takes any keyword
    arguments.  The call [_call(method, **keyword_args)] gives the first
    parameter of [_call] a second value: a [TypeError] at the call, caught
    by the catch-all clause.  The handler is not invoked with the entries
    as keyword arguments: nothing is checked against its signature,
    nothing is invoked, the [TypeError] is logged and the answer is the
    generic server error with status 500. *)
Theorem handler_not_invoked_for_param_func :
  signature_bind sample.echo [] [("func", JInt 1)] = None
  /\ body sample.echo [] [("func", JInt 1)]
     = Returns (JArr [JArr []; JObj [("func", JInt 1)]])
  /\ dispatch (sample.server false)
       (JObj (sample.call_request "echo" (Some (JObj [("func", JInt 1)]))))
     = ([LogRequest
           (JObj (sample.call_request "echo" (Some (JObj [("func", JInt 1)]))));
         Lookup (JStr "echo");
         LogException
           (TypeError "_call() got multiple values for argument 'func'");
         LogResponse
           (error_document (without_data (ServerError (JStr "See server logs"))))
           500],
        Returns
          (error_document (without_data (ServerError (JStr "See server logs"))),
           500%Z)).
Proof. repeat split. Qed.

(** C10, at an input where the code misses it.  A handler raises a taxonomy
    error that carries no data ([ParseError()], as [dispatch_str] builds
    it) and debug is off: the [except] clause pops a [data] member that is
    not there, and [dispatch] raises [KeyError] instead of returning the
    error document with status 400.  With debug on the same request is
    answered. *)
Theorem dispatch_propagates_key_error :
  result (dispatch (sample.server false) (JObj (sample.call_request "refuse" None)))
    = Raises (KeyError (JStr "data"))
  /\ result (dispatch (sample.server true) (JObj (sample.call_request "refuse" None)))
    = Returns (error_document (set_request_id ParseError (JInt 1)), 400%Z).
Proof. split; reflexivity. Qed.

(** * Further properties of request.py *)

Section MoreCamelCase.
Import request.

Lemma convert_fixes_converted (s : string) :
  convert_camel_case_string (convert_camel_case_string s)
  = convert_camel_case_string s.
Proof.
  rewrite (convert_of_no_upper _ (convert_no_upper s)).
  unfold convert_camel_case_string. apply lower_lower.
Qed.

Lemma drop_underscores_app (s t : string) :
  drop_underscores (s ++ t) = (drop_underscores s ++ drop_underscores t)%string.
Proof.
  induction s as [|c s IH]; [reflexivity|]. simpl.
  destruct (Ascii.eqb c "_"); simpl; now rewrite IH.
Qed.

Lemma string_take_skip (n : nat) (s : string) :
  (string_take n s ++ string_skip n s)%string = s.
Proof.
  revert s. induction n as [|n IH]; intros [|c s]; simpl; try reflexivity.
  now rewrite IH.
Qed.

Lemma take_lower_run (s : string) :
  string_take (String.length (lower_run s)) s = lower_run s.
Proof.
  induction s as [|c s IH]; [reflexivity|]. simpl.
  destruct (is_lower c); simpl; [now rewrite IH|reflexivity].
Qed.

Lemma sub_scan_drop_underscores (m : matcher) :
  inserts_underscores m ->
  forall s skip,
    drop_underscores (sub_scan m skip s) = drop_underscores (string_skip skip s).
Proof.
  intros Hm. induction s as [|c s IH]; intros skip.
  - destruct skip; reflexivity.
  - destruct skip as [|k]; [|apply IH].
    cbn [sub_scan string_skip].
    destruct (m (String c s)) as [[n repl]|] eqn:E.
    + destruct (Hm _ _ _ E) as [Hn Hrepl].
      rewrite drop_underscores_app, Hrepl, IH.
      destruct n as [|n]; [lia|]. cbn [pred].
      change (string_skip n s) with (string_skip (S n) (String c s)).
      now rewrite <- drop_underscores_app, string_take_skip.
    + cbn [drop_underscores]. rewrite (IH 0). cbn [string_skip]. reflexivity.
Qed.

Lemma word_boundary_inserts : inserts_underscores word_boundary.
Proof.
  intros t n repl. unfold word_boundary.
  destruct t as [|c [|u [|l rest]]]; try discriminate.
  destruct (is_dot c && is_upper u && is_lower l)%bool eqn:E; [|discriminate].
  intros H. inversion H; subst. split; [lia|].
  cbn [string_take Nat.add]. rewrite take_lower_run.
  apply andb_prop in E as [E _]. apply andb_prop in E as [_ Hu].
  assert (Ascii.eqb u "_" = false) as Hu'.
  { destruct (Ascii.eqb_spec u "_") as [->|]; [discriminate Hu|reflexivity]. }
  simpl. rewrite Hu'. reflexivity.
Qed.

Lemma hump_inserts : inserts_underscores hump.
Proof.
  intros t n repl. unfold hump.
  destruct t as [|c [|u rest]]; try discriminate.
  destruct ((is_lower c || is_digit c) && is_upper u)%bool eqn:E; [|discriminate].
  intros H. inversion H; subst. split; [lia|].
  apply andb_prop in E as [_ Hu].
  assert (Ascii.eqb u "_" = false) as Hu'.
  { destruct (Ascii.eqb_spec u "_") as [->|]; [discriminate Hu|reflexivity]. }
  simpl. rewrite Hu'. reflexivity.
Qed.

Lemma lower_char_underscore (c : ascii) :
  Ascii.eqb (lower_char c) "_" = Ascii.eqb c "_".
Proof.
  destruct c as [[] [] [] [] [] [] [] []]; vm_compute; reflexivity.
Qed.

Lemma drop_underscores_lower (s : string) :
  drop_underscores (lower s) = lower (drop_underscores s).
Proof.
  induction s as [|c s IH]; [reflexivity|]. simpl.
  rewrite lower_char_underscore. destruct (Ascii.eqb c "_"); simpl; now rewrite IH.
Qed.

End MoreCamelCase.

(** X1.  A name without a letter A-Z gets no underscore: the conversion
    only lowercases it, so a name that lowercasing leaves alone (a
    snake_case name, for instance) comes back unchanged. *)
Theorem name_without_capitals_only_lowercased (s : string) :
  no_upper s = true ->
  request.convert_camel_case_string s = request.lower s
  /\ (request.lower s = s -> request.convert_camel_case_string s = s).
Proof.
  intros H. rewrite (convert_of_no_upper s H). split; [reflexivity|auto].
Qed.

Lemma name_without_capitals_only_lowercased_witness :
  no_upper "get_user_2fa" = true
  /\ request.convert_camel_case_string "get_user_2fa" = "get_user_2fa".
Proof.
  split; [reflexivity|].
  apply (name_without_capitals_only_lowercased "get_user_2fa"); reflexivity.
Defined.

(** X2.  The two substitutions only insert underscores, and lowercasing
    comes last: the converted name is the lowercased form of a text that
    differs from the original in underscores only; and it holds no letter
    A-Z. *)
Theorem convert_inserts_only_underscores (s : string) :
  (exists t,
     request.convert_camel_case_string s = request.lower t
     /\ drop_underscores t = drop_underscores s)
  /\ no_upper (request.convert_camel_case_string s) = true.
Proof.
  split; [|apply lower_no_upper].
  exists (request.re_sub request.hump (request.re_sub request.word_boundary s)).
  split; [reflexivity|]. unfold request.re_sub.
  rewrite (sub_scan_drop_underscores _ hump_inserts _ 0). cbn [string_skip].
  rewrite (sub_scan_drop_underscores _ word_boundary_inserts _ 0).
  cbn [string_skip]. now destruct s.
Qed.

Section Dictionaries.

Lemma dict_lookup_set_same {V} (d : dict V) (k : string) (v : V) :
  dict_lookup (dict_set d k v) k = Some v.
Proof.
  induction d as [|[k' v'] d IH]; simpl.
  - now rewrite String.eqb_refl.
  - destruct (String.eqb k' k) eqn:E; simpl; [now rewrite String.eqb_refl|].
    now rewrite E.
Qed.

Lemma dict_lookup_set_other {V} (d : dict V) (k k' : string) (v : V) :
  k' <> k -> dict_lookup (dict_set d k v) k' = dict_lookup d k'.
Proof.
  intros Hne. induction d as [|[k0 v0] d IH]; simpl.
  - destruct (String.eqb_spec k k'); [congruence|reflexivity].
  - destruct (String.eqb_spec k0 k) as [->|]; simpl.
    + destruct (String.eqb_spec k k'); [congruence|reflexivity].
    + now rewrite IH.
Qed.

Lemma in_keys_dict_set {V} (d : dict V) (k x : string) (v : V) :
  In x (dict_keys (dict_set d k v)) <-> x = k \/ In x (dict_keys d).
Proof.
  unfold dict_keys. induction d as [|[k' v'] d IH]; simpl.
  - intuition.
  - destruct (String.eqb_spec k' k) as [->|]; simpl; intuition.
Qed.

Lemma in_dict_set {V} (d : dict V) (k : string) (v : V) (e : string * V) :
  In e (dict_set d k v) -> e = (k, v) \/ In e d.
Proof.
  induction d as [|[k' v'] d IH]; simpl.
  - intuition.
  - destruct (String.eqb k' k); simpl; intuition.
Qed.

Lemma nodup_keys_dict_set {V} (d : dict V) (k : string) (v : V) :
  NoDup (dict_keys d) -> NoDup (dict_keys (dict_set d k v)).
Proof.
  unfold dict_keys. induction d as [|[k' v'] d IH]; simpl; intros H.
  - constructor; [intros []|constructor].
  - inversion H as [|? ? Hnotin Hd]; subst.
    destruct (String.eqb_spec k' k) as [->|Hne]; simpl.
    + constructor; assumption.
    + constructor; [|auto].
      intros Hin. apply (in_keys_dict_set d k k' v) in Hin.
      destruct Hin as [->|Hin]; [congruence|contradiction].
Qed.

(** A key that is not there yet goes to the end. *)
Lemma dict_set_fresh {V} (d : dict V) (k : string) (v : V) :
  ~ In k (dict_keys d) -> dict_set d k v = d ++ [(k, v)].
Proof.
  unfold dict_keys. induction d as [|[k' v'] d IH]; simpl; intros H; [reflexivity|].
  destruct (String.eqb_spec k' k) as [->|]; [tauto|].
  rewrite IH; tauto.
Qed.

Lemma dict_lookup_none_keys {V} (d : dict V) (k : string) :
  dict_lookup d k = None <-> ~ In k (dict_keys d).
Proof.
  unfold dict_keys. induction d as [|[k' v'] d IH]; simpl; [tauto|].
  destruct (String.eqb_spec k' k) as [->|]; [split; [discriminate|tauto]|].
  rewrite IH. tauto.
Qed.

End Dictionaries.

Section MoreCamelCaseKeys.
Import request.

(** Induction on JSON values that reaches the values of an object. *)
Lemma json_object_ind (P : json -> Prop)
    (Hother : forall v, (forall d, v <> JObj d) -> P v)
    (Hobj : forall d, Forall (fun kv => P (snd kv)) d -> P (JObj d)) :
  forall v, P v.
Proof.
  fix IH 1. intros [ | b | n | bits | s | l | d];
    try (apply Hother; intros d'; discriminate).
  apply Hobj. revert d. fix IHd 1. intros [|[k x] d]; constructor.
  - apply IH.
  - apply IHd.
Qed.

Lemma convert_camel_case_keys_fold (d : dict json) :
  convert_camel_case_keys d = fold_left convert_entry d [].
Proof. reflexivity. Qed.

Lemma fold_convert_keys (d acc : dict json) (k : string) :
  In k (dict_keys (fold_left convert_entry d acc)) <->
  In k (dict_keys acc)
  \/ exists k0, In k0 (dict_keys d) /\ k = convert_camel_case_string k0.
Proof.
  revert acc. induction d as [|[k1 v1] d IH]; intros acc; simpl.
  - split; [tauto|]. intros [H|[k0 [[] _]]]. exact H.
  - rewrite IH. unfold convert_entry. rewrite in_keys_dict_set. simpl.
    split.
    + intros [[->|H]|[k0 [H ->]]]; eauto.
    + intros [H|[k0 [[->|H] ->]]]; eauto.
Qed.

Lemma fold_convert_nodup (d acc : dict json) :
  NoDup (dict_keys acc) -> NoDup (dict_keys (fold_left convert_entry d acc)).
Proof.
  revert acc. induction d as [|kv d IH]; intros acc H; simpl; [exact H|].
  apply IH, nodup_keys_dict_set, H.
Qed.

Lemma fold_convert_entries (d acc : dict json) (e : string * json) :
  In e (fold_left convert_entry d acc) ->
  In e acc
  \/ exists kv, In kv d /\ e = (convert_camel_case_string (fst kv),
                                convert_camel_case_value (snd kv)).
Proof.
  revert acc. induction d as [|kv d IH]; intros acc; simpl; [tauto|].
  intros H. apply IH in H as [H|[kv' [H ->]]]; [|eauto].
  apply in_dict_set in H as [->|H]; eauto.
Qed.

(** Filling a dict again from entries that are already converted, and
    whose keys are distinct and new, appends them in order. *)
Lemma fold_convert_fixed (d acc : dict json) :
  NoDup (dict_keys d) ->
  (forall k, In k (dict_keys d) -> ~ In k (dict_keys acc)) ->
  (forall kv, In kv d ->
     convert_camel_case_string (fst kv) = fst kv
     /\ convert_camel_case_value (snd kv) = snd kv) ->
  fold_left convert_entry d acc = acc ++ d.
Proof.
  revert acc. induction d as [|[k v] d IH]; intros acc Hnd Hnew Hfix; simpl.
  - now rewrite app_nil_r.
  - inversion Hnd as [|? ? Hk Hd]; subst.
    destruct (Hfix (k, v) (or_introl eq_refl)) as [Hk' Hv']. simpl in Hk', Hv'.
    unfold convert_entry at 2. simpl. rewrite Hk', Hv'.
    rewrite dict_set_fresh by (apply Hnew; left; reflexivity).
    rewrite IH; [now rewrite <- app_assoc| exact Hd | |].
    + intros k0 Hin Hacc. unfold dict_keys in Hacc.
      rewrite map_app in Hacc. apply in_app_or in Hacc as [Hacc|[<-|[]]].
      * apply (Hnew k0); [right; exact Hin|exact Hacc].
      * contradiction.
    + intros kv Hin. apply Hfix. right. exact Hin.
Qed.

Lemma convert_camel_case_value_fixes_converted (v : json) :
  convert_camel_case_value (convert_camel_case_value v)
  = convert_camel_case_value v.
Proof.
  induction v as [v Hv|d IH] using json_object_ind.
  - destruct v; try reflexivity. destruct (Hv entries eq_refl).
  - rewrite !convert_camel_case_value_dict. f_equal.
    rewrite (convert_camel_case_keys_fold (convert_camel_case_keys d)).
    apply (fold_convert_fixed _ []).
    + apply fold_convert_nodup. constructor.
    + intros k _ [].
    + intros kv Hin. apply fold_convert_entries in Hin as [[]|[kv0 [Hin0 ->]]].
      simpl. split; [apply convert_fixes_converted|].
      rewrite Forall_forall in IH. apply (IH kv0 Hin0).
Qed.

End MoreCamelCaseKeys.

(** X3.  The keys of a converted dict are exactly the converted keys of
    the original, and they are pairwise distinct, also when several
    original keys convert to the same name. *)
Theorem convert_camel_case_keys_keys (d : dict json) :
  (forall k, In k (dict_keys (request.convert_camel_case_keys d)) <->
             exists k0, In k0 (dict_keys d)
                        /\ k = request.convert_camel_case_string k0)
  /\ NoDup (dict_keys (request.convert_camel_case_keys d)).
Proof.
  split.
  - intros k. rewrite convert_camel_case_keys_fold, fold_convert_keys.
    simpl. tauto.
  - rewrite convert_camel_case_keys_fold. apply fold_convert_nodup. constructor.
Qed.

(** X4.  Converting the keys of a dict is idempotent, nested dicts
    included. *)
Theorem convert_camel_case_keys_idempotent (d : dict json) :
  request.convert_camel_case_keys (request.convert_camel_case_keys d)
  = request.convert_camel_case_keys d.
Proof.
  pose proof (convert_camel_case_value_fixes_converted (JObj d)) as H.
  rewrite (convert_camel_case_value_dict d) in H.
  rewrite (convert_camel_case_value_dict (request.convert_camel_case_keys d)) in H.
  injection H as H. exact H.
Qed.

(** X5.  When several keys convert to the same name, the value of the
    last one is kept: after conversion, the name of the last entry maps to
    that entry's converted value. *)
Theorem convert_camel_case_keys_last_wins
    (d : dict json) (key : string) (val : json) :
  dict_lookup (request.convert_camel_case_keys (d ++ [(key, val)]))
    (request.convert_camel_case_string key)
  = Some (match val with
          | JObj inner => JObj (request.convert_camel_case_keys inner)
          | _ => val
          end).
Proof.
  rewrite convert_camel_case_keys_fold, fold_left_app. simpl.
  unfold convert_entry at 1. simpl. rewrite dict_lookup_set_same. f_equal.
  destruct val; try reflexivity. apply convert_camel_case_value_dict.
Qed.

Example camel_case_keys_collide :
  request.convert_camel_case_keys
    [("userName", JInt 1); ("other", JInt 2); ("user_name", JInt 3)]
  = [("user_name", JInt 3); ("other", JInt 2)].
Proof. reflexivity. Qed.

Section MoreArguments.
Import request.

Lemma init_shape (method : string) (jsonrpc : option string)
    (params : supplied json) (id : request_id) (convert_camel_case : bool)
    (context : supplied json) :
  exists a k,
    init method jsonrpc params id false context
      = Returns (mkRequest jsonrpc method a k id)
    /\ init method jsonrpc params id true context
      = Returns (mkRequest jsonrpc (convert_camel_case_string method) a
                   (convert_camel_case_keys k) id).
Proof.
  unfold init.
  destruct (is_list_or_dict params); [rewrite get_arguments_returns|];
    do 2 eexists; (split; [reflexivity|]).
  - match goal with |- context [truthy ?k] => destruct k end; reflexivity.
  - reflexivity.
Qed.

End MoreArguments.

(** X6.  A supplied context takes the key [context] of the named
    arguments: it replaces a parameter of that name sent by the caller,
    leaves every other parameter as it was, and goes last when the caller
    sent none of that name.  There are no positional arguments. *)
Theorem context_overrides_named_param (d : dict json) (c : json) :
  exists nameds,
    request.get_arguments (request.Given (JObj d)) (request.Given c)
      = Returns ([], nameds)
    /\ dict_lookup nameds "context" = Some c
    /\ (forall k, k <> "context" -> dict_lookup nameds k = dict_lookup d k)
    /\ (dict_lookup d "context" = None -> nameds = d ++ [("context", c)])
    /\ (dict_lookup d "context" <> None -> dict_keys nameds = dict_keys d).
Proof.
  rewrite get_arguments_returns. eexists. split; [reflexivity|]. cbv zeta.
  split; [apply dict_lookup_set_same|].
  split; [intros k Hk; now apply dict_lookup_set_other|].
  split.
  - intros H. apply dict_set_fresh. now apply dict_lookup_none_keys.
  - intros H. unfold dict_keys. clear -H.
    induction d as [|[k v] d IH]; simpl in *; [congruence|].
    destruct (String.eqb_spec k "context") as [->|]; simpl; [reflexivity|].
    now rewrite IH.
Qed.

(** X7.  Both ways of resolving arguments agree on the params themselves:
    without a context, [get_arguments] returns what
    [_convert_params_to_args_and_kwargs] returns, with an empty list or
    dict where the latter has [None]; and it never fails its assertion. *)
Theorem get_arguments_agrees_with_dispatcher (params : json) :
  request.get_arguments (request.Given params) request.UNSPECIFIED
  = Returns
      (dispatcher.unpack (fst (dispatcher._convert_params_to_args_and_kwargs params)),
       dispatcher.unpack (snd (dispatcher._convert_params_to_args_and_kwargs params))).
Proof.
  rewrite get_arguments_returns. destruct params; reflexivity.
Qed.

(** X8.  Asking for camelCase conversion changes a Request in two places
    only: the method name is converted and the keys of the named
    arguments are converted (a context included); positional arguments,
    id and version are the same as without conversion. *)
Theorem init_with_conversion
    (method : string) (jsonrpc : option string) (params : request.supplied json)
    (id : request.request_id) (context : request.supplied json) :
  exists r,
    request.init method jsonrpc params id false context = Returns r
    /\ request.method r = method
    /\ request.init method jsonrpc params id true context
      = Returns
          (request.mkRequest (request.jsonrpc r)
             (request.convert_camel_case_string method)
             (request.args r)
             (request.convert_camel_case_keys (request.kwargs r))
             (request.id r)).
Proof.
  destruct (init_shape method jsonrpc params id true context)
    as (a & k & H0 & H1).
  eexists. split; [exact H0|]. split; [reflexivity|exact H1].
Qed.

(** * Further properties of dispatcher.py *)

Section MoreDispatch.
Import dispatcher.
Local Open Scope py_scope.
Context `{P : Platform}.

Lemma validation_passes (self : Dispatcher) (request : json) :
  (validate_requests self = true -> schema_violation request = None) ->
  (if validate_requests self then
     match schema_violation request with
     | Some message => raise (TaxonomyError (InvalidRequest (JStr message)))
     | None => ret tt
     end
   else ret tt) = @ret unit tt.
Proof.
  intros H. destruct (validate_requests self); [rewrite H|]; reflexivity.
Qed.

Lemma dispatch_try_invalid (self : Dispatcher) (request : json) (message : string) :
  validate_requests self = true ->
  schema_violation request = Some message ->
  dispatch_try self request
  = ([], Raises (TaxonomyError (InvalidRequest (JStr message)))).
Proof. intros Hon Hbad. unfold dispatch_try. rewrite Hon, Hbad. reflexivity. Qed.

Lemma dispatch_try_not_a_dict (self : Dispatcher) (request : json) :
  (validate_requests self = true -> schema_violation request = None) ->
  (forall d, request <> JObj d) ->
  exists msg, dispatch_try self request = ([], Raises (TypeError msg)).
Proof.
  intros Hvalid Hnot. unfold dispatch_try. rewrite (validation_passes _ _ Hvalid).
  rewrite bind_ret_l.
  destruct request; try (eexists; reflexivity). destruct (Hnot entries eq_refl).
Qed.

Lemma dispatch_try_no_method (self : Dispatcher) (request : dict json) :
  (validate_requests self = true -> schema_violation (JObj request) = None) ->
  dict_lookup request "method" = None ->
  dispatch_try self (JObj request) = ([], Raises (KeyError (JStr "method"))).
Proof.
  intros Hvalid Hnone. unfold dispatch_try. rewrite (validation_passes _ _ Hvalid).
  rewrite bind_ret_l. cbn [getitem]. rewrite Hnone. reflexivity.
Qed.

Lemma dispatch_try_unregistered (self : Dispatcher) (request : dict json)
    (name : string) :
  (validate_requests self = true -> schema_violation (JObj request) = None) ->
  dict_lookup request "method" = Some (JStr name) ->
  dict_lookup (_rpc_methods self) name = None ->
  dispatch_try self (JObj request)
  = ([Lookup (JStr name)], Raises (TaxonomyError (MethodNotFound (JStr name)))).
Proof.
  intros Hvalid Hmethod Hnone. unfold dispatch_try.
  rewrite (validation_passes _ _ Hvalid), bind_ret_l. cbn [getitem get].
  rewrite Hmethod, !bind_lift_returns. unfold lookup_method. rewrite Hnone.
  destruct (_convert_params_to_args_and_kwargs _) as [pa ka]. reflexivity.
Qed.

Lemma answer_with_data (debug : bool) (err : JsonRpcServerError) (status : Z) :
  is_None (data err) = false ->
  (if debug then Returns (error_document err, status)
   else if is_None (data err) then Raises (KeyError (JStr "data"))
   else Returns (error_document (without_data err), status))
  = Returns (answer_document debug err, status).
Proof. intros H. unfold answer_document. rewrite H. now destruct debug. Qed.

Lemma after_log_line_found (response : json) (status : Z) :
  http_reason status <> None ->
  after_log_line (Returns (response, status)) = Returns (response, status).
Proof.
  intros H. unfold after_log_line. destruct (http_reason status); congruence.
Qed.

Lemma dispatch_raise_taxonomy (self : Dispatcher) (request : dict json)
    (err : JsonRpcServerError) :
  result (dispatch_try self (JObj request)) = Raises (TaxonomyError err) ->
  is_None (data err) = false ->
  http_reason (http_status_code err) <> None ->
  result (dispatch self (JObj request))
  = Returns (answer_document (debug self)
               (set_request_id err (dict_get request "id")),
             http_status_code err).
Proof.
  intros Htry Hdata Hstatus. rewrite result_dispatch, Htry. cbn [is_Exception].
  rewrite result_dispatch_except. cbv zeta. cbn [get].
  rewrite answer_with_data by exact Hdata.
  now apply after_log_line_found.
Qed.

Lemma dispatch_raise_other (self : Dispatcher) (request : json) (e : exn) :
  result (dispatch_try self request) = Raises e ->
  is_Exception e = true ->
  (forall err, e <> TaxonomyError err) ->
  result (dispatch self request)
  = Returns (answer_document (debug self) (ServerError (JStr "See server logs")),
             500%Z).
Proof.
  intros Htry Hexc Hother. rewrite result_dispatch, Htry, Hexc.
  rewrite result_dispatch_except. cbv zeta.
  destruct e as [err| | | | | | ]; try discriminate Hexc;
    try (rewrite answer_with_data by reflexivity;
         apply after_log_line_known; simpl; tauto).
  destruct (Hother err eq_refl).
Qed.

Lemma dispatch_try_of_call (self : Dispatcher) (request : dict json)
    (name : string) (func : handler) (args : list json) (kwargs : dict json) :
  (validate_requests self = true -> schema_violation (JObj request) = None) ->
  dict_lookup request "method" = Some (JStr name) ->
  dict_lookup (_rpc_methods self) name = Some func ->
  request_arguments request args kwargs ->
  dict_lookup kwargs "func" = None ->
  trace (dispatch_try self (JObj request))
  = Lookup (JStr name) :: trace (_call func args kwargs)
  /\ forall e,
       result (_call func args kwargs) = Raises e ->
       result (dispatch_try self (JObj request)) = Raises e.
Proof.
  intros Hvalid Hmethod Hreg Hargs Hfunc.
  rewrite (dispatch_try_reaches self request name func args kwargs
             Hvalid Hmethod Hreg Hargs Hfunc).
  rewrite !trace_bind, !result_bind.
  change (result (emit (Lookup (JStr name)))) with (Returns tt).
  change (trace (emit (Lookup (JStr name)))) with [Lookup (JStr name)].
  cbv beta iota. split.
  - destruct (result (_call func _ _)) as [r|e];
      [destruct (negb (is_None (dict_get request "id")))|];
      cbn; now rewrite ?app_nil_r.
  - intros e ->. reflexivity.
Qed.

Lemma dispatch_try_bad_method (self : Dispatcher) (request : dict json) (m : json) :
  (validate_requests self = true -> schema_violation (JObj request) = None) ->
  dict_lookup request "method" = Some m ->
  (forall name, m <> JStr name) ->
  exists e, dispatch_try self (JObj request) = ([Lookup m], Raises e).
Proof.
  intros Hvalid Hmethod Hnot. unfold dispatch_try.
  rewrite (validation_passes _ _ Hvalid), bind_ret_l. cbn [getitem get].
  rewrite Hmethod, !bind_lift_returns. unfold lookup_method.
  destruct (_convert_params_to_args_and_kwargs _) as [pa ka].
  destruct m; try (eexists; reflexivity). destruct (Hnot s eq_refl).
Qed.

Lemma error_code_answer (debug : bool) (e : JsonRpcServerError) :
  error_code (answer_document debug e) = Some (JInt (jsonrpc_status_code e)).
Proof.
  unfold answer_document. destruct debug; rewrite error_code_document; reflexivity.
Qed.

Lemma error_data_answer (debug : bool) (e : JsonRpcServerError) :
  is_None (data e) = false ->
  error_data (answer_document debug e) = if debug then Some (data e) else None.
Proof.
  intros H. unfold answer_document.
  destruct debug; rewrite error_data_document; [now rewrite H|reflexivity].
Qed.

(** X9.  A request that names no registered method is answered with the
    MethodNotFound document, code -32601 and status 404, whatever its id;
    the name is the error's data, shown with debug on only.  The registry
    is consulted once and nothing is called. *)
Theorem dispatch_method_not_found (self : Dispatcher) (request : dict json)
    (name : string) :
  (validate_requests self = true -> schema_violation (JObj request) = None) ->
  dict_lookup request "method" = Some (JStr name) ->
  dict_lookup (_rpc_methods self) name = None ->
  exists response,
    result (dispatch self (JObj request)) = Returns (response, 404%Z)
    /\ response = answer_document (debug self)
                    (set_request_id (MethodNotFound (JStr name))
                       (dict_get request "id"))
    /\ error_code response = Some (JInt (-32601))
    /\ error_data response = (if debug self then Some (JStr name) else None)
    /\ trace (dispatch self (JObj request))
       = [LogRequest (JObj request); Lookup (JStr name); LogResponse response 404].
Proof.
  intros Hvalid Hmethod Hnone.
  pose proof (dispatch_try_unregistered self request name Hvalid Hmethod Hnone) as Htry.
  assert (Hres : result (dispatch self (JObj request))
                 = Returns (answer_document (debug self)
                              (set_request_id (MethodNotFound (JStr name))
                                 (dict_get request "id")), 404%Z)).
  { apply (dispatch_raise_taxonomy self request (MethodNotFound (JStr name)));
      [rewrite Htry; reflexivity|reflexivity
      |apply http_reason_known; simpl; tauto]. }
  eexists. split; [exact Hres|]. split; [reflexivity|].
  split; [apply error_code_answer|]. split; [now apply error_data_answer|].
  rewrite trace_dispatch, Hres, Htry. reflexivity.
Qed.

(** X10.  With validation on, a dict that violates the schema is answered
    with the InvalidRequest document, code -32600 and status 400, before
    anything else happens: no lookup, no call.  The validator's message is
    the error's data. *)
Theorem dispatch_invalid_request (self : Dispatcher) (request : dict json)
    (message : string) :
  validate_requests self = true ->
  schema_violation (JObj request) = Some message ->
  exists response,
    result (dispatch self (JObj request)) = Returns (response, 400%Z)
    /\ response = answer_document (debug self)
                    (set_request_id (InvalidRequest (JStr message))
                       (dict_get request "id"))
    /\ error_code response = Some (JInt (-32600))
    /\ error_data response = (if debug self then Some (JStr message) else None)
    /\ trace (dispatch self (JObj request))
       = [LogRequest (JObj request); LogResponse response 400].
Proof.
  intros Hon Hbad.
  pose proof (dispatch_try_invalid self (JObj request) message Hon Hbad) as Htry.
  assert (Hres : result (dispatch self (JObj request))
                 = Returns (answer_document (debug self)
                              (set_request_id (InvalidRequest (JStr message))
                                 (dict_get request "id")), 400%Z)).
  { apply (dispatch_raise_taxonomy self request (InvalidRequest (JStr message)));
      [rewrite Htry; reflexivity|reflexivity
      |apply http_reason_known; simpl; tauto]. }
  eexists. split; [exact Hres|]. split; [reflexivity|].
  split; [apply error_code_answer|]. split; [now apply error_data_answer|].
  rewrite trace_dispatch, Hres, Htry. reflexivity.
Qed.

(** X11.  When the arguments of a request reach [_call] (no keyword
    argument is named [func]) and do not fit the signature of the
    handler, the answer is the InvalidParams document, code -32602 and
    status 400, with the binder's message as data, and the handler's body
    does not run. *)
Theorem dispatch_invalid_params (self : Dispatcher) (request : dict json)
    (name : string) (func : handler) (msg : string)
    (args : list json) (kwargs : dict json) :
  (validate_requests self = true -> schema_violation (JObj request) = None) ->
  dict_lookup request "method" = Some (JStr name) ->
  dict_lookup (_rpc_methods self) name = Some func ->
  request_arguments request args kwargs ->
  dict_lookup kwargs "func" = None ->
  signature_bind func args kwargs = Some msg ->
  exists response,
    result (dispatch self (JObj request)) = Returns (response, 400%Z)
    /\ response = answer_document (debug self)
                    (set_request_id (InvalidParams (JStr msg))
                       (dict_get request "id"))
    /\ error_code response = Some (JInt (-32602))
    /\ invoked (trace (dispatch self (JObj request))) = [].
Proof.
  intros Hvalid Hmethod Hreg Hargs Hfunc Hsig.
  destruct (dispatch_try_of_call self request name func args kwargs
              Hvalid Hmethod Hreg Hargs Hfunc) as [Htrace Hraise].
  pose proof (_call_refused func args kwargs msg Hsig) as Hcall.
  assert (Hres : result (dispatch self (JObj request))
                 = Returns (answer_document (debug self)
                              (set_request_id (InvalidParams (JStr msg))
                                 (dict_get request "id")), 400%Z)).
  { apply (dispatch_raise_taxonomy self request (InvalidParams (JStr msg)));
      [apply Hraise; rewrite Hcall; reflexivity|reflexivity
      |apply http_reason_known; simpl; tauto]. }
  eexists. split; [exact Hres|]. split; [reflexivity|].
  split; [apply error_code_answer|].
  rewrite (proj2 (calls_of_dispatch self (JObj request))), Htrace, Hcall.
  reflexivity.
Qed.

(** X12.  An [Exception] outside the taxonomy raised by a handler that was
    reached is logged and answered with the generic server error, code
    -32000 and status 500, for a request and for a notification alike.
    The answer is the document of a fresh [ServerError]: nothing of the
    request or of the exception is in it, and its data, visible with
    debug on only, is the fixed text. *)
Theorem dispatch_handler_exception (self : Dispatcher) (request : dict json)
    (name : string) (func : handler) (e : exn)
    (args : list json) (kwargs : dict json) :
  (validate_requests self = true -> schema_violation (JObj request) = None) ->
  dict_lookup request "method" = Some (JStr name) ->
  dict_lookup (_rpc_methods self) name = Some func ->
  request_arguments request args kwargs ->
  dict_lookup kwargs "func" = None ->
  signature_bind func args kwargs = None ->
  body func args kwargs = Raises e ->
  is_Exception e = true ->
  (forall err, e <> TaxonomyError err) ->
  exists response,
    result (dispatch self (JObj request)) = Returns (response, 500%Z)
    /\ response = answer_document (debug self) (ServerError (JStr "See server logs"))
    /\ error_code response = Some (JInt (-32000))
    /\ error_data response
       = (if debug self then Some (JStr "See server logs") else None)
    /\ logged_exceptions (trace (dispatch self (JObj request))) = [e].
Proof.
  intros Hvalid Hmethod Hreg Hargs Hfunc Hsig Hbody Hexc Hother.
  destruct (dispatch_try_of_call self request name func args kwargs
              Hvalid Hmethod Hreg Hargs Hfunc) as [Htrace Hraise].
  pose proof (_call_accepted func args kwargs Hsig) as Hcall.
  rewrite Hbody in Hcall.
  assert (Htry : result (dispatch_try self (JObj request)) = Raises e).
  { apply Hraise. rewrite Hcall. reflexivity. }
  pose proof (dispatch_raise_other self (JObj request) e Htry Hexc Hother) as Hres.
  eexists. split; [exact Hres|]. split; [reflexivity|].
  split; [apply error_code_answer|]. split; [now apply error_data_answer|].
  rewrite trace_dispatch, Hres, Htry, Htrace, Hcall, Hexc.
  destruct e; cbn; try reflexivity. destruct (Hother e eq_refl).
Qed.

(** X13.  A taxonomy error with data raised by a handler that was reached
    is answered with that error's own document, code and status, with
    the request's id attached, provided the status is one that
    [HTTP_STATUS_CODES] knows; it is not logged as an exception. *)
Theorem dispatch_handler_taxonomy_error (self : Dispatcher) (request : dict json)
    (name : string) (func : handler) (err : JsonRpcServerError)
    (args : list json) (kwargs : dict json) :
  (validate_requests self = true -> schema_violation (JObj request) = None) ->
  dict_lookup request "method" = Some (JStr name) ->
  dict_lookup (_rpc_methods self) name = Some func ->
  request_arguments request args kwargs ->
  dict_lookup kwargs "func" = None ->
  signature_bind func args kwargs = None ->
  body func args kwargs = Raises (TaxonomyError err) ->
  is_None (data err) = false ->
  http_reason (http_status_code err) <> None ->
  exists response,
    result (dispatch self (JObj request))
      = Returns (response, http_status_code err)
    /\ response = answer_document (debug self)
                    (set_request_id err (dict_get request "id"))
    /\ error_code response = Some (JInt (jsonrpc_status_code err))
    /\ error_data response = (if debug self then Some (data err) else None)
    /\ logged_exceptions (trace (dispatch self (JObj request))) = [].
Proof.
  intros Hvalid Hmethod Hreg Hargs Hfunc Hsig Hbody Hdata Hstatus.
  destruct (dispatch_try_of_call self request name func args kwargs
              Hvalid Hmethod Hreg Hargs Hfunc) as [Htrace Hraise].
  pose proof (_call_accepted func args kwargs Hsig) as Hcall.
  rewrite Hbody in Hcall.
  assert (Htry : result (dispatch_try self (JObj request))
                 = Raises (TaxonomyError err)).
  { apply Hraise. rewrite Hcall. reflexivity. }
  pose proof (dispatch_raise_taxonomy self request err Htry Hdata Hstatus) as Hres.
  eexists. split; [exact Hres|]. split; [reflexivity|].
  split; [rewrite error_code_answer; reflexivity|].
  split; [rewrite error_data_answer by exact Hdata; reflexivity|].
  rewrite trace_dispatch, Hres, Htry, Htrace, Hcall. reflexivity.
Qed.

(** X14.  A dict without a [method] key that gets past validation (it is
    off, or the validator lets it through) is not reported as an invalid
    request: the [KeyError] of [request['method']] is logged and answered
    with the generic server error and status 500.  The registry is not
    consulted. *)
Theorem dispatch_missing_method (self : Dispatcher) (request : dict json) :
  (validate_requests self = true -> schema_violation (JObj request) = None) ->
  dict_lookup request "method" = None ->
  exists response,
    result (dispatch self (JObj request)) = Returns (response, 500%Z)
    /\ response = answer_document (debug self) (ServerError (JStr "See server logs"))
    /\ trace (dispatch self (JObj request))
       = [LogRequest (JObj request); LogException (KeyError (JStr "method"));
          LogResponse response 500].
Proof.
  intros Hvalid Hnone.
  pose proof (dispatch_try_no_method self request Hvalid Hnone) as Htry.
  assert (Hres : result (dispatch self (JObj request))
                 = Returns (answer_document (debug self)
                              (ServerError (JStr "See server logs")), 500%Z)).
  { apply (dispatch_raise_other self (JObj request) (KeyError (JStr "method")));
      [rewrite Htry; reflexivity|reflexivity|discriminate]. }
  eexists. split; [exact Hres|]. split; [reflexivity|].
  rewrite trace_dispatch, Hres, Htry. reflexivity.
Qed.

(** X15.  A request that is not a dict (a batch array, a bare number or
    string) and that validation rejects makes [dispatch] raise: in the
    clause for taxonomy errors, [request.get('id')] is an attribute error
    on anything but a dict.  Nothing is returned and no response is
    logged. *)
Theorem dispatch_rejected_non_dict_raises (self : Dispatcher) (request : json)
    (message : string) :
  (forall d, request <> JObj d) ->
  validate_requests self = true ->
  schema_violation request = Some message ->
  exists msg,
    result (dispatch self request) = Raises (AttributeError msg)
    /\ trace (dispatch self request) = [LogRequest request].
Proof.
  intros Hnot Hon Hbad.
  pose proof (dispatch_try_invalid self request message Hon Hbad) as Htry.
  assert (Hget : exists msg, get request "id" = Raises (AttributeError msg)).
  { destruct request; try (eexists; reflexivity). destruct (Hnot entries eq_refl). }
  destruct Hget as [msg Hget]. exists msg.
  assert (Hres : result (dispatch self request) = Raises (AttributeError msg)).
  { rewrite result_dispatch, Htry. cbn [result snd].
    rewrite result_dispatch_except. cbv zeta. now rewrite Hget. }
  split; [exact Hres|]. rewrite trace_dispatch, Hres, Htry. reflexivity.
Qed.

(** X16.  A request that is not a dict and that gets past validation is
    answered with the generic server error and status 500: subscripting
    it for the method is a type error, caught by the catch-all clause. *)
Theorem dispatch_non_dict_server_error (self : Dispatcher) (request : json) :
  (forall d, request <> JObj d) ->
  (validate_requests self = true -> schema_violation request = None) ->
  exists response msg,
    result (dispatch self request) = Returns (response, 500%Z)
    /\ response = answer_document (debug self) (ServerError (JStr "See server logs"))
    /\ trace (dispatch self request)
       = [LogRequest request; LogException (TypeError msg);
          LogResponse response 500].
Proof.
  intros Hnot Hvalid.
  destruct (dispatch_try_not_a_dict self request Hvalid Hnot) as [msg Htry].
  assert (Hres : result (dispatch self request)
                 = Returns (answer_document (debug self)
                              (ServerError (JStr "See server logs")), 500%Z)).
  { apply (dispatch_raise_other self request (TypeError msg));
      [rewrite Htry; reflexivity|reflexivity|discriminate]. }
  do 2 eexists. split; [exact Hres|]. split; [reflexivity|].
  rewrite trace_dispatch, Hres, Htry. reflexivity.
Qed.

Lemma try_calls_at_most_once (self : Dispatcher) (request : json) :
  (validate_requests self = true -> schema_violation request = None) ->
  List.length (attempted (trace (dispatch_try self request))) <= 1
  /\ (invoked (trace (dispatch_try self request))
        = attempted (trace (dispatch_try self request))
      \/ invoked (trace (dispatch_try self request)) = []).
Proof.
  intros Hvalid.
  destruct request as [ | | | | | |d];
    try (destruct (dispatch_try_not_a_dict self _ Hvalid) as [msg Htry];
         [intros d; discriminate|]; rewrite Htry; cbn; split; [lia|auto]).
  destruct (dict_lookup d "method") as [m|] eqn:Hmethod.
  - destruct m as [ | | | |name| | ];
      try (destruct (dispatch_try_bad_method self d _ Hvalid Hmethod) as [e Htry];
           [intros name; discriminate|]; rewrite Htry; cbn; split; [lia|auto]).
    destruct (dict_lookup (_rpc_methods self) name) as [func|] eqn:Hreg.
    + destruct (calls_of_dispatch self (JObj d)) as [Ha Hi].
      destruct (calls_of_registered self d name func Hvalid Hmethod Hreg)
        as [Ha' Hi'].
      rewrite <- Ha, <- Hi, Ha', Hi'. unfold call__call.
      destruct (dict_lookup _ "func"); [cbn; split; [lia|auto]|].
      destruct (calls_of__call func
                  (fst (call_arguments (dict_get d "params")))
                  (snd (call_arguments (dict_get d "params")))) as [-> ->].
      split; [simpl; lia|].
      destruct (signature_bind func _ _); auto.
    + rewrite (dispatch_try_unregistered self d name Hvalid Hmethod Hreg).
      cbn. split; [lia|auto].
  - rewrite (dispatch_try_no_method self d Hvalid Hmethod).
    cbn. split; [lia|auto].
Qed.

(** X17.  Whatever the request and the registry, one dispatch checks at
    most one call against a signature, and what runs is that call or
    nothing: a handler never runs twice, and never with arguments that
    were not checked. *)
Theorem dispatch_calls_at_most_once (self : Dispatcher) (request : json) :
  List.length (attempted (trace (dispatch self request))) <= 1
  /\ (invoked (trace (dispatch self request))
        = attempted (trace (dispatch self request))
      \/ invoked (trace (dispatch self request)) = []).
Proof.
  destruct (calls_of_dispatch self request) as [-> ->].
  destruct (validate_requests self) eqn:Hon;
    [destruct (schema_violation request) as [message|] eqn:Hbad|].
  - rewrite (dispatch_try_invalid self request message Hon Hbad). simpl. auto.
  - apply try_calls_at_most_once. intros _. exact Hbad.
  - apply try_calls_at_most_once. rewrite Hon. discriminate.
Qed.

(** X18.  With debug on, [dispatch] returns a response and a status for
    a request that is a dict, with two exceptions: the [try] block raised
    a taxonomy error whose status [HTTP_STATUS_CODES] does not know (the
    log line raises [KeyError]), or it raised something that is no
    [Exception], which no clause catches. *)
Theorem dispatch_returns_with_debug (self : Dispatcher) (request : dict json) :
  debug self = true ->
  (exists response status,
     result (dispatch self (JObj request)) = Returns (response, status))
  \/ (exists err,
        result (dispatch_try self (JObj request)) = Raises (TaxonomyError err)
        /\ http_reason (http_status_code err) = None
        /\ result (dispatch self (JObj request))
           = Raises (KeyError (JInt (http_status_code err))))
  \/ (exists e,
        result (dispatch_try self (JObj request)) = Raises e
        /\ is_Exception e = false
        /\ result (dispatch self (JObj request)) = Raises e).
Proof.
  intros Hdebug.
  destruct (dispatch_returns_or_key_error self request) as [H|[[Hoff _]|H]];
    [left; exact H|congruence|right; exact H].
Qed.

(** X19.  Registering a method makes the name map to the callable (its
    own name when none is given), replacing what was registered under that
    name; other names and the two flags are untouched, the callable is
    handed back, and [method(name)] does the same as [register_method]
    with that name. *)
Theorem register_method_lookup (self : Dispatcher) (func : handler)
    (name : option string) :
  let registered := match name with Some n => n | None => __name__ func end in
  let self' := fst (register_method self func name) in
  dict_lookup (_rpc_methods self') registered = Some func
  /\ (forall other, other <> registered ->
        dict_lookup (_rpc_methods self') other
        = dict_lookup (_rpc_methods self) other)
  /\ validate_requests self' = validate_requests self
  /\ debug self' = debug self
  /\ snd (register_method self func name) = func
  /\ method self registered func = register_method self func (Some registered).
Proof.
  cbv zeta. unfold register_method, method. cbn [fst snd _rpc_methods
    validate_requests debug].
  split; [apply dict_lookup_set_same|].
  split; [intros other Hne; now apply dict_lookup_set_other|].
  repeat split.
Qed.

(** X20.  Registration and dispatch compose: once a callable is registered
    under a name, a request for that name that passes validation and
    whose arguments reach [_call] (no keyword argument is named [func])
    calls that callable, once, with the arguments of the request,
    whatever was registered under the name before; and when the callable
    takes the arguments and returns, the answer is built from what it
    returned on them. *)
Theorem register_then_dispatch (self : Dispatcher) (func : handler)
    (name : string) (request : dict json)
    (args : list json) (kwargs : dict json) :
  (validate_requests self = true -> schema_violation (JObj request) = None) ->
  dict_lookup request "method" = Some (JStr name) ->
  request_arguments request args kwargs ->
  dict_lookup kwargs "func" = None ->
  sole_call
    (trace (dispatch (fst (register_method self func (Some name))) (JObj request)))
    func args kwargs
  /\ (signature_bind func args kwargs = None ->
      forall R, body func args kwargs = Returns R ->
        result (dispatch (fst (register_method self func (Some name)))
                  (JObj request))
        = Returns (if negb (is_None (dict_get request "id"))
                   then (rpc_success_response (dict_get request "id") R, 200%Z)
                   else (JNull, 204%Z))).
Proof.
  intros Hvalid Hmethod Hargs Hfunc.
  assert (Hreg : dict_lookup
                   (_rpc_methods (fst (register_method self func (Some name))))
                   name = Some func) by apply dict_lookup_set_same.
  split.
  - now apply (calls_of_reached _ request name func args kwargs).
  - intros Hsig R Hbody.
    now apply (dispatch_handler_returns _ request name func args kwargs R).
Qed.

(** X21.  Every dispatch logs the request first; when it returns, the
    last thing it logs is the response with its status, the very pair it
    returns. *)
Theorem dispatch_logs_request_and_response (self : Dispatcher) (request : json) :
  (exists rest, trace (dispatch self request) = LogRequest request :: rest)
  /\ (forall response status,
        result (dispatch self request) = Returns (response, status) ->
        exists middle,
          trace (dispatch self request)
          = LogRequest request :: middle ++ [LogResponse response status]).
Proof.
  split.
  - rewrite trace_dispatch. eexists. reflexivity.
  - intros response status H. rewrite trace_dispatch, H.
    eexists. rewrite app_assoc. reflexivity.
Qed.

End MoreDispatch.

(** * The further properties at concrete inputs *)

Lemma dispatch_method_not_found_witness :
  dict_lookup (_rpc_methods (sample.server false)) "nonexistent" = None
  /\ exists response,
       result (dispatch (sample.server false)
                 (JObj (sample.call_request "nonexistent" None)))
         = Returns (response, 404%Z)
       /\ error_code response = Some (JInt (-32601))
       /\ error_data response = None.
Proof.
  split; [reflexivity|].
  destruct (dispatch_method_not_found (sample.server false)
              (sample.call_request "nonexistent" None) "nonexistent")
    as (response & Hres & _ & Hcode & Hdata & _);
    [intros _; reflexivity|reflexivity|reflexivity|].
  exists response. split; [exact Hres|]. split; [exact Hcode|exact Hdata].
Defined.

Lemma dispatch_invalid_request_witness :
  schema_violation (JObj [("method", JStr "ping"); ("id", JInt 7)])
    = Some "'jsonrpc' is a required property"
  /\ exists response,
       result (dispatch (sample.server true)
                 (JObj [("method", JStr "ping"); ("id", JInt 7)]))
         = Returns (response, 400%Z)
       /\ error_code response = Some (JInt (-32600))
       /\ error_data response = Some (JStr "'jsonrpc' is a required property")
       /\ getitem response "id" = Returns (JInt 7).
Proof.
  split; [reflexivity|].
  destruct (dispatch_invalid_request (sample.server true)
              [("method", JStr "ping"); ("id", JInt 7)]
              "'jsonrpc' is a required property")
    as (response & Hres & Hdoc & Hcode & Hdata & _); [reflexivity|reflexivity|].
  exists response. split; [exact Hres|]. split; [exact Hcode|].
  split; [exact Hdata|]. rewrite Hdoc. reflexivity.
Defined.

Lemma dispatch_invalid_params_witness :
  request_arguments (sample.call_request "ping" (Some (JArr [JInt 1]))) [JInt 1] []
  /\ signature_bind sample.ping [JInt 1] [] = Some "too many arguments"
  /\ exists response,
       result (dispatch (sample.server false)
                 (JObj (sample.call_request "ping" (Some (JArr [JInt 1])))))
         = Returns (response, 400%Z)
       /\ error_code response = Some (JInt (-32602))
       /\ invoked (trace (dispatch (sample.server false)
                            (JObj (sample.call_request "ping" (Some (JArr [JInt 1]))))))
          = [].
Proof.
  split; [split; reflexivity|]. split; [reflexivity|].
  destruct (dispatch_invalid_params (sample.server false)
              (sample.call_request "ping" (Some (JArr [JInt 1])))
              "ping" sample.ping "too many arguments" [JInt 1] [])
    as (response & Hres & _ & Hcode & Hinv);
    [intros _; reflexivity|reflexivity|reflexivity|split; reflexivity
    |reflexivity|reflexivity|].
  exists response. split; [exact Hres|]. split; [exact Hcode|exact Hinv].
Defined.

Lemma dispatch_handler_exception_witness :
  body sample.crash [] [] = Raises (OtherException "ValueError" "boom")
  /\ is_Exception (OtherException "ValueError" "boom") = true
  /\ exists response,
       result (dispatch (sample.server false) (JObj (sample.notify_request "crash")))
         = Returns (response, 500%Z)
       /\ error_code response = Some (JInt (-32000))
       /\ error_data response = None
       /\ logged_exceptions
            (trace (dispatch (sample.server false)
                      (JObj (sample.notify_request "crash"))))
          = [OtherException "ValueError" "boom"].
Proof.
  split; [reflexivity|]. split; [reflexivity|].
  destruct (dispatch_handler_exception (sample.server false)
              (sample.notify_request "crash") "crash" sample.crash
              (OtherException "ValueError" "boom") [] [])
    as (response & Hres & _ & Hcode & Hdata & Hlog);
    [intros _; reflexivity|reflexivity|reflexivity|split; reflexivity
    |reflexivity|reflexivity|reflexivity|reflexivity|discriminate|].
  exists response. split; [exact Hres|]. split; [exact Hcode|].
  split; [exact Hdata|exact Hlog].
Defined.

Lemma dispatch_handler_taxonomy_error_witness :
  body deny [] [] = Raises (TaxonomyError (InvalidParams (JStr "denied")))
  /\ http_reason (http_status_code (InvalidParams (JStr "denied"))) <> None
  /\ exists response,
       result (dispatch (fst (register_method (sample.server true) deny None))
                 (JObj (sample.call_request "deny" None)))
         = Returns (response, 400%Z)
       /\ error_code response = Some (JInt (-32602))
       /\ error_data response = Some (JStr "denied").
Proof.
  split; [reflexivity|]. split; [discriminate|].
  destruct (dispatch_handler_taxonomy_error
              (fst (register_method (sample.server true) deny None))
              (sample.call_request "deny" None) "deny" deny
              (InvalidParams (JStr "denied")) [] [])
    as (response & Hres & _ & Hcode & Hdata & _);
    [intros _; reflexivity|reflexivity|reflexivity|split; reflexivity
    |reflexivity|reflexivity|reflexivity|reflexivity|discriminate|].
  exists response. split; [exact Hres|]. split; [exact Hcode|exact Hdata].
Defined.

Lemma dispatch_missing_method_witness :
  dict_lookup [("jsonrpc", JStr "2.0"); ("id", JInt 1)] "method" = None
  /\ exists response,
       result (dispatch (mkDispatcher [] false false)
                 (JObj [("jsonrpc", JStr "2.0"); ("id", JInt 1)]))
         = Returns (response, 500%Z)
       /\ response = answer_document false (ServerError (JStr "See server logs")).
Proof.
  split; [reflexivity|].
  destruct (dispatch_missing_method (mkDispatcher [] false false)
              [("jsonrpc", JStr "2.0"); ("id", JInt 1)])
    as (response & Hres & Hdoc & _); [discriminate|reflexivity|].
  exists response. split; [exact Hres|exact Hdoc].
Defined.

Lemma dispatch_rejected_non_dict_raises_witness :
  schema_violation (JArr []) = Some "request is not of type 'object'"
  /\ exists msg,
       result (dispatch (sample.server false) (JArr []))
         = Raises (AttributeError msg)
       /\ trace (dispatch (sample.server false) (JArr []))
          = [LogRequest (JArr [])].
Proof.
  split; [reflexivity|].
  apply (dispatch_rejected_non_dict_raises (sample.server false) (JArr [])
           "request is not of type 'object'");
    [intros d; discriminate|reflexivity|reflexivity].
Defined.

Lemma dispatch_non_dict_server_error_witness :
  validate_requests (mkDispatcher [] false true) = false
  /\ exists response msg,
       result (dispatch (mkDispatcher [] false true) (JInt 5))
         = Returns (response, 500%Z)
       /\ response = answer_document true (ServerError (JStr "See server logs"))
       /\ trace (dispatch (mkDispatcher [] false true) (JInt 5))
          = [LogRequest (JInt 5); LogException (TypeError msg);
             LogResponse response 500].
Proof.
  split; [reflexivity|].
  apply (dispatch_non_dict_server_error (mkDispatcher [] false true) (JInt 5));
    [intros d; discriminate|discriminate].
Defined.

Lemma dispatch_returns_with_debug_witness :
  debug (fst (register_method (sample.server true) teapot None)) = true
  /\ http_reason 418 = None
  /\ result (dispatch (fst (register_method (sample.server true) teapot None))
               (JObj (sample.call_request "teapot" None)))
     = Raises (KeyError (JInt 418))
  /\ exists response status,
       result (dispatch (sample.server true)
                 (JObj (sample.call_request "refuse" None)))
         = Returns (response, status).
Proof.
  split; [reflexivity|]. split; [reflexivity|]. split; [reflexivity|].
  destruct (dispatch_returns_with_debug (sample.server true)
              (sample.call_request "refuse" None)) as [H|[H|H]];
    [reflexivity|exact H| |].
  - destruct H as (err & _ & _ & H). discriminate H.
  - destruct H as (e & _ & _ & H). discriminate H.
Defined.

Lemma register_then_dispatch_witness :
  dict_lookup (_rpc_methods (sample.server false)) "ping" = Some sample.ping
  /\ request_arguments (sample.call_request "ping" (Some (JArr [JInt 1])))
       [JInt 1] []
  /\ sole_call
       (trace (dispatch (fst (register_method (sample.server false) sample.echo
                                (Some "ping")))
                 (JObj (sample.call_request "ping" (Some (JArr [JInt 1]))))))
       sample.echo [JInt 1] []
  /\ result (dispatch (fst (register_method (sample.server false) sample.echo
                              (Some "ping")))
               (JObj (sample.call_request "ping" (Some (JArr [JInt 1])))))
     = Returns (rpc_success_response (JInt 1) (JArr [JArr [JInt 1]; JObj []]),
                200%Z).
Proof.
  split; [reflexivity|]. split; [split; reflexivity|].
  destruct (register_then_dispatch (sample.server false) sample.echo "ping"
              (sample.call_request "ping" (Some (JArr [JInt 1]))) [JInt 1] [])
    as [Hcall Hres];
    [intros _; reflexivity|reflexivity|split; reflexivity|reflexivity|].
  split; [exact Hcall|].
  apply (Hres eq_refl (JArr [JArr [JInt 1]; JObj []])). reflexivity.
Defined.
